(** * EduFlow rag-app: ingestion pipeline, polling and file ledger

    A shallow embedding of the non-UI functions of [rag-app.py] and of
    the two UI fragments that decide observable behaviour (the upload
    widget's extension list and the store-deletion button).

    Conventions.
    - A Python call that may raise returns a [result]; a function that
      also touches the disk, the clock or the session threads a state
      through the [io] monad below.
    - Paths, names, messages and markdown are [string]s holding the
      UTF-8 bytes of the Python text: they are only concatenated,
      compared and split at ASCII characters.  The text extracted from
      PDF pages is a sequence of code points ([pytext]), because
      [len] and [strip] count and classify code points.
    - Calls into external services and libraries (the Gemini client,
      PyMuPDF, pandas, the converters' engines) are oracles gathered in
      records: their outcome is an input of the model. *)

From Stdlib Require Import ZArith Lia Ascii String.
From Equations Require Import Equations.
From stdpp Require Import base option list strings gmap pretty.

Set Warnings "-register-all,-clear-no-such-hyp".

(** ** Python results and a state-and-exception monad *)

(** An exception: its class name and [str(e)]. *)
Record exn := Exn { exn_class : string; exn_msg : string }.

Inductive result (A : Type) : Type :=
| Ok (a : A)
| Raise (e : exn).
Arguments Ok {A} a.
Arguments Raise {A} e.

Definition is_ok {A} (r : result A) : bool :=
  match r with Ok _ => true | Raise _ => false end.

(** A computation over a state [S]: the state after an exception is the
    state at the raise. *)
Definition io (S A : Type) : Type := S → result A * S.

#[export] Instance io_ret {S} : MRet (io S) := λ A a s, (Ok a, s).
#[export] Instance io_bind {S} : MBind (io S) := λ A B f m s,
  match m s with
  | (Ok a, s') => f a s'
  | (Raise e, s') => (Raise e, s')
  end.

Definition throw {S A} (e : exn) : io S A := λ s, (Raise e, s).
Definition lift {S A} (r : result A) : io S A := λ s, (r, s).
Definition get_state {S} : io S S := λ s, (Ok s, s).
Definition put_state {S} (s : S) : io S unit := λ _, (Ok tt, s).

(** What the script shows on the page: [st.toast], [st.error],
    [st.success], and the request to run the script again. *)
Inductive ui_event : Type :=
| UiToast (msg : string)
| UiError (msg : string)
| UiSuccess (msg : string)
| UiRerun.

(** A line feed, written ["\n"] in the source. *)
Definition nl : string := String "010"%char EmptyString.

(** ** Local file list (JSON ledger) *)

Module Ledger.

(** A Python value as [json.load] returns it and [json.dump] takes
    it.  [PStr s] is a str that is Unicode text, held as its UTF-8
    bytes; [PSurrogate s] is a str holding a lone surrogate (such as
    ['bad\udcff.pdf']), which has no UTF-8 bytes: [s] is its text
    with the surrogates escaped. *)
Inductive pyval : Type :=
| PNone
| PBool (b : bool)
| PNum (z : Z)
| PStr (s : string)
| PList (l : list pyval)
| PDict (d : gmap string pyval)
| PSurrogate (s : string).

(** The values the file's UTF-8 encoder can write: those holding no
    str with a lone surrogate. *)
Fixpoint encodable (v : pyval) : bool :=
  match v with
  | PSurrogate _ => false
  | PList l => forallb encodable l
  | PDict d => map_fold (λ _ x rest, encodable x && rest) true d
  | _ => true
  end.

(** [store_config.json] on disk: absent, present but not JSON (an
    empty or cut-off text is such a file), or the JSON image of a
    value.  The file is UTF-8 text and [json.dump] is called with
    [ensure_ascii=False], which writes every str as it is and never as
    an escape: so the value a file holds has no lone surrogate, and
    [json.load] gives back the value that was dumped.  A file edited
    by hand to hold the escape of a lone surrogate is left out. *)
Inductive ledger_file : Type :=
| Missing
| Garbled
| Holds (v : pyval) (Hv : Is_true (encodable v)).

Definition JSONDecodeError : exn :=
  Exn "JSONDecodeError" "Expecting value: line 1 column 1 (char 0)".
Definition TypeError (msg : string) : exn := Exn "TypeError" msg.
Definition AttributeError (msg : string) : exn := Exn "AttributeError" msg.
Definition UnicodeEncodeError : exn :=
  Exn "UnicodeEncodeError"
      "'utf-8' codec can't encode character: surrogates not allowed".

(** [os.path.exists(CONFIG_FILE)] *)
Definition config_exists (f : ledger_file) : bool :=
  match f with Missing => false | _ => true end.

(** [json.load(f)] on the open file *)
Definition json_load (f : ledger_file) : result pyval :=
  match f with
  | Holds v _ => Ok v
  | _ => Raise JSONDecodeError
  end.

Definition load_config : io ledger_file pyval :=
  f ← get_state;
  if config_exists f then lift (json_load f) else mret (PDict ∅).

(** [config[store_id] = files] *)
Definition py_setitem (config : pyval) (k : string) (v : pyval) : result pyval :=
  match config with
  | PDict d => Ok (PDict (<[k:=v]> d))
  | _ => Raise (TypeError "object does not support item assignment")
  end.

(** [config.get(store_id, [])] *)
Definition py_get (config : pyval) (k : string) (dflt : pyval) : result pyval :=
  match config with
  | PDict d => Ok (default dflt (d !! k))
  | _ => Raise (AttributeError "object has no attribute 'get'")
  end.

(** [sub in s] for two strings *)
Fixpoint is_substring (sub s : string) : bool :=
  String.prefix sub s ||
  match s with
  | EmptyString => false
  | String _ s' => is_substring sub s'
  end.

(** [store_id in config] *)
Definition py_contains (config : pyval) (k : string) : result bool :=
  match config with
  | PDict d => Ok (bool_decide (is_Some (d !! k)))
  | PList l =>
      Ok (existsb (λ v, match v with PStr s => String.eqb s k | _ => false end) l)
  | PStr s | PSurrogate s => Ok (is_substring k s)
  | _ => Raise (TypeError "argument is not iterable")
  end.

(** [del config[store_id]], the key being present *)
Definition py_delitem (config : pyval) (k : string) : result pyval :=
  match config with
  | PDict d => Ok (PDict (delete k d))
  | _ => Raise (TypeError "object does not support item deletion")
  end.

(** [with open(CONFIG_FILE, "w") as f: json.dump(config, f, ...)].
    Opening for writing empties the file; [json.dump] then writes the
    JSON text piece by piece.  At a str with a lone surrogate the
    write raises [UnicodeEncodeError]: what is left on disk is the
    text up to that str, which is not JSON. *)
Definition json_dump (config : pyval) : io ledger_file unit :=
  match decide (Is_true (encodable config)) with
  | left Hv => put_state (Holds config Hv)
  | right _ => λ _, (Raise UnicodeEncodeError, Garbled)
  end.

(** The file after [open(CONFIG_FILE, "w")] and [json.dump(v, f, ...)]. *)
Definition dumped (v : pyval) : ledger_file := snd (json_dump v Missing).

Definition files_value (files : list string) : pyval := PList (PStr <$> files).

Definition save_file_list (store_id : string) (files : pyval) : io ledger_file unit :=
  config ← load_config;
  config ← lift (py_setitem config store_id files);
  json_dump config.

Definition get_file_list (store_id : string) : io ledger_file pyval :=
  config ← load_config;
  lift (py_get config store_id (PList [])).

Definition delete_file_list (store_id : string) : io ledger_file unit :=
  config ← load_config;
  present ← lift (py_contains config store_id);
  if (present : bool) then
    config ← lift (py_delitem config store_id);
    json_dump config
  else mret tt.

(** The ledger as the program leaves it: no file yet, or a JSON object. *)
Definition ledger_ok (f : ledger_file) : Prop :=
  match f with
  | Missing => True
  | Holds (PDict _) _ => True
  | _ => False
  end.

End Ledger.

(** ** Store deletion (tab 3) *)

Module Manage.
Import Ledger.

(** What the handler reads and writes: the ledger file,
    [st.session_state.current_store] and the page. *)
Record session := Session {
  ledger : ledger_file;
  current_store : option string;
  ui : list ui_event
}.

Definition in_ledger {A} (m : io ledger_file A) : io session A := λ s,
  let '(r, f) := m (ledger s) in
  (r, Session f (current_store s) (ui s)).

Definition show (e : ui_event) : io session unit := λ s,
  (Ok tt, Session (ledger s) (current_store s) (ui s ++ [e])).

Definition set_current_store (c : option string) : io session unit := λ s,
  (Ok tt, Session (ledger s) c (ui s)).

(** The body of [if st.button("🔴 저장소 삭제")]: [remote_delete] is the
    outcome of [client.file_search_stores.delete(name=..., config=...)].
    [st.rerun()] leaves the script through a control-flow exception
    that [except Exception] does not catch; the pause of one second
    before it is left out. *)
Definition delete_store_button (remote_delete : result unit)
    (current_store_id : string) (s : session) : session :=
  let body : io session unit :=
    lift remote_delete;;
    in_ledger (delete_file_list current_store_id);;
    set_current_store None;;
    show (UiSuccess "✅ 삭제 완료");;
    show UiRerun in
  match body s with
  | (Ok _, s') => s'
  | (Raise e, s') => snd (show (UiError ("삭제 실패: " +:+ exn_msg e)) s')
  end.

(** The body of [if st.button("🗑️", key=...)] in the list of all
    stores, for the store named [store_name]. *)
Definition delete_listed_store_button (remote_delete : result unit)
    (store_name : string) (s : session) : session :=
  let body : io session unit :=
    lift remote_delete;;
    in_ledger (delete_file_list store_name);;
    (if bool_decide (current_store s = Some store_name)
     then set_current_store None else mret tt);;
    show UiRerun in
  match body s with
  | (Ok _, s') => s'
  | (Raise e, s') => snd (show (UiError ("삭제 실패: " +:+ exn_msg e)) s')
  end.

End Manage.

(** ** Scanned-PDF probe *)

Module PdfProbe.

(** Text returned by [page.get_text()]: Unicode code points. *)
Definition pytext : Type := list N.

(** [str.isspace] for one code point, the set [str.strip()] removes. *)
Definition py_isspace (c : N) : bool :=
  ((9 <=? c) && (c <=? 13) || (28 <=? c) && (c <=? 32)
   || (c =? 133) || (c =? 160) || (c =? 5760)
   || (8192 <=? c) && (c <=? 8202)
   || (c =? 8232) || (c =? 8233) || (c =? 8239) || (c =? 8287)
   || (c =? 12288))%N.

Fixpoint lstrip (t : pytext) : pytext :=
  match t with
  | c :: t' => if py_isspace c then lstrip t' else t
  | [] => []
  end.

Definition rstrip (t : pytext) : pytext := rev (lstrip (rev t)).

(** [text.strip()] *)
Definition strip (t : pytext) : pytext := rstrip (lstrip t).

(** An opened document: per page, what loading it and calling
    [get_text()] gives; and what [doc.close()] gives. *)
Record pdf_doc := PdfDoc {
  pages : list (result pytext);
  close_result : result unit
}.

#[export] Instance result_ret : MRet result := λ A a, Ok a.
#[export] Instance result_bind : MBind result := λ A B f r,
  match r with Ok a => f a | Raise e => Raise e end.

(** [for page in ...: text += page.get_text()] *)
Fixpoint read_pages (ps : list (result pytext)) (text : pytext) : result pytext :=
  match ps with
  | [] => Ok text
  | p :: ps' => t ← p; read_pages ps' (text ++ t)
  end.

(** The [try] block of [is_scanned_pdf]; [opened] is the outcome of
    [fitz.open(pdf_path)]. *)
Definition probe (opened : result pdf_doc) : result bool :=
  doc ← opened;
  text ← read_pages (take 3 (pages doc)) [];
  close_result doc;;
  mret (bool_decide (length (strip text) < 100)).

Definition is_scanned_pdf (opened : result pdf_doc) : bool :=
  match probe opened with
  | Ok b => b
  | Raise _ => false
  end.

End PdfProbe.

(** ** Text helpers: lines and markdown headings *)

Module Text.






End Text.

(** ** Spreadsheet to markdown *)

Module Excel.

(** A cell: [None] is a missing value (NaN). *)
Definition cell : Type := option string.

Record DataFrame := Table {
  columns : list string;
  rows : list (list cell)
}.

(** A workbook read with [sheet_name=None]: sheet name to frame, in
    sheet order. *)
Definition workbook : Type := list (string * DataFrame).

(** [df.empty]: some axis has length 0. *)
Definition df_empty (df : DataFrame) : bool :=
  (length (columns df) =? 0) || (length (rows df) =? 0).

(** [df.fillna(v)] *)
Definition fillna (v : string) (df : DataFrame) : DataFrame :=
  Table (columns df) (map (map (λ c : cell, Some (default v c))) (rows df)).

(** The loop over [xls.items()]; [to_markdown] is
    [DataFrame.to_markdown(index=False)], which renders through the
    tabulate package and raises when that is not installed. *)
Fixpoint sheets_loop (to_markdown : DataFrame → result string)
    (items : workbook) (text_output : string) : result string :=
  match items with
  | [] => Ok text_output
  | (sheet_name, df) :: items' =>
      if df_empty df then sheets_loop to_markdown items' text_output
      else
        let text_output :=
          text_output +:+ (nl +:+ nl +:+ "## 엑셀 시트: " +:+ sheet_name +:+ nl +:+ nl) in
        match to_markdown (fillna EmptyString df) with
        | Ok table => sheets_loop to_markdown items' (text_output +:+ table)
        | Raise e => Raise e
        end
  end.

(** [read] is the outcome of [pd.read_excel(file_path, sheet_name=None)].
    The result is [None] for Python's [None]. *)
Definition convert_excel_to_markdown (read : result workbook)
    (to_markdown : DataFrame → result string) : io (list ui_event) (option string) :=
  λ page,
  let body :=
    match read with
    | Ok xls => sheets_loop to_markdown xls EmptyString
    | Raise e => Raise e
    end in
  match body with
  | Ok text_output => (Ok (Some text_output), page)
  | Raise e => (Ok None, page ++ [UiError ("엑셀 변환 실패: " +:+ exn_msg e)])
  end.


(** Following the spec: the text a cell shows, a missing cell being
    rendered empty. *)
Definition shown (c : cell) : string :=
  match c with
  | Some text => text
  | None => EmptyString
  end.

(** Following the spec: the sheet with missing cells rendered empty,
    that is the same columns and, row by row, a cell holding the text
    each cell shows. *)
Definition blank_missing (df : DataFrame) : DataFrame :=
  Table (columns df) (map (map (λ c, Some (shown c))) (rows df)).






End Excel.

(** ** Paths and strings *)

Module Path.

(** [c.lower()] on the ASCII letters: a name is held as its UTF-8
    bytes, and the bytes of a character that is not ASCII are left as
    they are, where [str.lower] also lowers the cased letters beyond
    ASCII.  On a name of ASCII characters [lower] is [str.lower]; on
    any name the two agree on whether the result is one of the
    suffixes the program compares with, which hold ASCII letters
    only. *)
Definition lower_char (c : ascii) : ascii :=
  let n := Ascii.nat_of_ascii c in
  if (65 <=? n) && (n <=? 90) then Ascii.ascii_of_nat (n + 32) else c.

Fixpoint lower (s : string) : string :=
  match s with
  | EmptyString => EmptyString
  | String c s' => String (lower_char c) (lower s')
  end.

(** Every character of the text is ASCII. *)
Fixpoint ascii_only (s : string) : bool :=
  match s with
  | EmptyString => true
  | String c s' => (Ascii.nat_of_ascii c <? 128) && ascii_only s'
  end.

(** [s.endswith(suffix)] *)
Fixpoint ends_with (s suffix : string) : bool :=
  String.eqb s suffix ||
  match s with
  | EmptyString => false
  | String _ s' => ends_with s' suffix
  end.

(** Split at the last occurrence of [ch]: the text before it and the
    text from it on; [None] when [ch] does not occur. *)
Fixpoint rsplit_at (ch : ascii) (s : string) : option (string * string) :=
  match s with
  | EmptyString => None
  | String c s' =>
      match rsplit_at ch s' with
      | Some (pre, post) => Some (String c pre, post)
      | None => if Ascii.eqb c ch then Some (EmptyString, s) else None
      end
  end.

Fixpoint all_dots (s : string) : bool :=
  match s with
  | EmptyString => true
  | String c s' => Ascii.eqb c "." && all_dots s'
  end.

(** The last path component: the text after the last ["/"]. *)
Definition basename (p : string) : string :=
  match rsplit_at "/" p with
  | Some (_, String _ b) => b
  | _ => p
  end.

(** [os.path.splitext(p)[1]]: from the last dot of the last
    component, unless only dots come before it there. *)
Definition splitext_ext (p : string) : string :=
  match rsplit_at "." (basename p) with
  | Some (pre, ext) => if all_dots pre then EmptyString else ext
  | None => EmptyString
  end.

(** [s.replace(old, new)] for a non-empty [old], scanning from the
    left; [skip] counts characters of a match still to drop. *)
Fixpoint replace_from (skip : nat) (old new s : string) : string :=
  match s with
  | EmptyString => EmptyString
  | String c s' =>
      match skip with
      | S k => replace_from k old new s'
      | O =>
          if String.prefix old s
          then new +:+ replace_from (String.length old - 1) old new s'
          else String c (replace_from 0 old new s')
      end
  end.

(** With an empty [old], Python puts [new] before every character
    and at the end. *)
Fixpoint interleave (new s : string) : string :=
  match s with
  | EmptyString => new
  | String c s' => new +:+ String c (interleave new s')
  end.

Definition replace (s old new : string) : string :=
  match old with
  | EmptyString => interleave new s
  | _ => replace_from 0 old new s
  end.

End Path.

(** ** Waiting for a long-running operation *)

Module Polling.

(** An operation object as returned by the client. *)
Record operation := Operation { op_name : string; done : bool }.

(** The clock in seconds, the calls to [time.sleep] so far, and the
    number of [client.operations.get] calls so far. *)
Record clock := Clock {
  now : Z;
  sleeps : list Z;
  polls : nat
}.

(** [client.operations]: what the k-th [get] returns and how long it
    takes. *)
Record operations_api := OperationsApi {
  get_response : nat → result operation;
  get_latency : nat → nat
}.

Definition time_sleep (d : Z) (c : clock) : clock :=
  Clock (now c + d) (sleeps c ++ [d]) (polls c).

Definition after_get (api : operations_api) (c : clock) : clock :=
  Clock (now c + Z.of_nat (get_latency api (polls c))) (sleeps c) (S (polls c)).

Definition TimeoutError : exn := Exn "TimeoutError" "작업 시간 초과 (5분)".

(** The [while not operation.done] loop. The clock moves on by at
    least three seconds per round, which bounds the rounds. *)
Equations? wait_loop (api : operations_api) (op : operation)
    (start_time timeout : Z) (c : clock) : result operation * clock
    by wf (Z.to_nat (timeout - (now c - start_time) + 1)) lt :=
  wait_loop api op start_time timeout c with done op := {
    | true := (Ok op, c);
    | false with Z_gt_dec (now c - start_time) timeout := {
        | left _ := (Raise TimeoutError, c);
        | right _ with get_response api (polls (time_sleep 3 c)) := {
            | Ok op' :=
                wait_loop api op' start_time timeout (after_get api (time_sleep 3 c));
            | Raise e := (Raise e, after_get api (time_sleep 3 c)) } } }.
Proof. simpl. lia. Qed.

Definition wait_for_operation (api : operations_api) (op : operation)
    (timeout : Z) : io clock operation :=
  λ c, wait_loop api op (now c) timeout c.

(** The default of the [timeout] parameter. *)
Definition default_timeout : Z := 300.

(** No response of the service ever reports done. *)
Definition never_done (api : operations_api) : Prop :=
  ∀ k, ∃ op, get_response api k = Ok op ∧ done op = false.

End Polling.

(** ** PDF converters *)

Module Convert.

Definition is_import_error (e : exn) : bool :=
  String.eqb (exn_class e) "ImportError"
  || String.eqb (exn_class e) "ModuleNotFoundError".

(** The common shape of the three PDF converters: the engine's
    outcome is returned, or reported with [st.error] and turned into
    [None]. *)
Definition guarded (missing failed : string) (engine : result string)
    : io (list ui_event) (option string) := λ page,
  match engine with
  | Ok md => (Ok (Some md), page)
  | Raise e =>
      if is_import_error e then (Ok None, page ++ [UiError missing])
      else (Ok None, page ++ [UiError (failed +:+ exn_msg e)])
  end.

(** [engine] is the outcome of [pymupdf4llm.to_markdown(pdf_path)],
    the import included. *)
Definition convert_with_pymupdf4llm (engine : result string) :=
  guarded "pymupdf4llm이 설치되지 않았습니다. `pip install pymupdf4llm`"
          "pymupdf4llm 변환 실패: " engine.

(** [engine] is the outcome of the Docling conversion and export. *)
Definition convert_with_docling (engine : result string) :=
  guarded "Docling이 설치되지 않았습니다. `pip install docling`"
          "Docling 변환 실패: " engine.

(** The vision path: [rendered] is the outcome of
    [convert_from_path(pdf_path, dpi=150)] as one PNG per page, and
    [generate model png] the text of the model's answer for a page. *)
Fixpoint vision_pages (generate : string → string → result string) (model : string)
    (total : nat) (i : nat) (images : list string) (all_content : list string)
    : io (list ui_event) (list string) :=
  match images with
  | [] => mret all_content
  | img :: images' =>
      (λ page, (Ok tt, page ++ [UiToast ("📷 페이지 " +:+ pretty (i + 1) +:+ "/"
                                         +:+ pretty total +:+ " Vision 처리 중...")]));;
      text ← lift (generate model img);
      vision_pages generate model total (i + 1) images'
        (all_content ++ ["## 페이지 " +:+ pretty (i + 1) +:+ nl +:+ nl +:+ text])
  end.

(** [sep.join(parts)] *)
Fixpoint join (sep : string) (parts : list string) : string :=
  match parts with
  | [] => EmptyString
  | [x] => x
  | x :: rest => x +:+ sep +:+ join sep rest
  end.

Definition convert_with_gemini_vision (rendered : result (list string))
    (generate : string → string → result string) (model : string)
    : io (list ui_event) (option string) := λ page,
  let body : io (list ui_event) string :=
    images ← lift rendered;
    all_content ← vision_pages generate model (length images) 0 images [];
    mret (join (nl +:+ nl +:+ "---" +:+ nl +:+ nl) all_content) in
  match body page with
  | (Ok md, page') => (Ok (Some md), page')
  | (Raise e, page') =>
      if is_import_error e
      then (Ok None, page' ++ [UiError "pdf2image가 설치되지 않았습니다. `pip install pdf2image`"])
      else (Ok None, page' ++ [UiError ("Gemini Vision 처리 실패: " +:+ exn_msg e)])
  end.

End Convert.

(** ** The ingestion pipeline *)

Module Ingest.
Import Path PdfProbe Excel Convert Polling.

(** The file handed over by the upload widget. *)
Record uploaded := Uploaded { name : string; getvalue : string }.

(** What creating a file and writing to it does. *)
Inductive write_outcome : Type :=
| Written
| OpenFails (e : exn)        (* no file is created *)
| WriteFails (e : exn).      (* the file exists, the write raised *)

(** The outside world of one call. *)
Record services := Services {
  tmp_stem : string;            (* directory and random name chosen by [tempfile] *)
  stage : write_outcome;        (* [NamedTemporaryFile(delete=False, ...)] and [tmp.write] *)
  fitz_open : result pdf_doc;
  read_excel : result workbook;
  to_markdown : DataFrame → result string;
  pymupdf4llm_engine : result string;
  docling_engine : result string;
  pdf2image_render : result (list string);
  generate_content : string → string → result string;
  md_write : write_outcome;     (* [open(md_path, "w")] and [f.write] *)
  files_upload : string → string → string → result string;
      (* path, mime type, display name; the name of the remote file *)
  import_file : string → string → result operation;
  operations : operations_api
}.

Record world := World {
  disk : gset string;           (* the paths that exist *)
  clk : clock;
  page : list ui_event
}.

(** The state inside the call: the world and the local [md_path],
    which the [finally] block reads. *)
Record frame := Frame { w : world; md_path : option string }.

Definition on_world (f : world → world) : io frame unit := λ fr,
  (Ok tt, Frame (f (w fr)) (md_path fr)).

Definition on_page {A} (m : io (list ui_event) A) : io frame A := λ fr,
  let '(r, pg) := m (page (w fr)) in
  (r, Frame (World (disk (w fr)) (clk (w fr)) pg) (md_path fr)).

Definition on_clock {A} (m : io clock A) : io frame A := λ fr,
  let '(r, c) := m (clk (w fr)) in
  (r, Frame (World (disk (w fr)) c (page (w fr))) (md_path fr)).

Definition toast (msg : string) : io frame unit :=
  on_page (λ pg, (Ok tt, pg ++ [UiToast msg])).

Definition create_file (p : string) (wd : world) : world :=
  World ({[p]} ∪ disk wd) (clk wd) (page wd).

(** [if os.path.exists(p): os.remove(p)] *)
Definition remove_if_exists (p : string) (wd : world) : world :=
  if decide (p ∈ disk wd) then World (disk wd ∖ {[p]}) (clk wd) (page wd) else wd.

Definition set_md_path (p : string) : io frame unit := λ fr,
  (Ok tt, Frame (w fr) (Some p)).

Definition write_md (p : string) (o : write_outcome) : io frame unit :=
  match o with
  | Written => on_world (create_file p)
  | OpenFails e => throw e
  | WriteFails e => on_world (create_file p);; throw e
  end.

(** [suffix in ['.xlsx', '.xls', '.xlsm']] *)
Definition is_excel_suffix (suffix : string) : bool :=
  existsb (String.eqb suffix) [".xlsx"; ".xls"; ".xlsm"].

(** [if converted_content:] *)
Definition truthy (content : option string) : bool :=
  match content with
  | Some (String _ _) => true
  | _ => false
  end.

(** Steps 1 and 2 of the [try] block: pick and run the converter. *)
Definition convert_step (sv : services) (uploaded_file : uploaded)
    (suffix preprocess_method vision_model : string)
    : io frame (option string * string) :=
  if is_excel_suffix suffix then
    toast ("📊 엑셀 '" +:+ name uploaded_file +:+ "' 변환 중...");;
    c ← on_page (convert_excel_to_markdown (read_excel sv) (to_markdown sv));
    mret (c, name uploaded_file +:+ " (표 최적화)")
  else if String.eqb suffix ".pdf" then
    if is_scanned_pdf (fitz_open sv) then
      toast "📷 스캔 PDF 감지 → Gemini Vision 사용";;
      c ← on_page (convert_with_gemini_vision (pdf2image_render sv)
                     (generate_content sv) vision_model);
      mret (c, name uploaded_file +:+ " (Vision 추출)")
    else
      c ← (if String.eqb preprocess_method "Docling (정확, 느림)" then
             toast ("🔬 Docling으로 '" +:+ name uploaded_file +:+ "' 변환 중...");;
             on_page (convert_with_docling (docling_engine sv))
           else
             toast ("⚡ pymupdf4llm으로 '" +:+ name uploaded_file +:+ "' 변환 중...");;
             on_page (convert_with_pymupdf4llm (pymupdf4llm_engine sv)));
      mret (c, name uploaded_file +:+ " (마크다운 변환)")
  else mret (None, name uploaded_file).

(** Step 3: the blob to upload and its MIME type. *)
Definition stage_step (sv : services) (tmp_path suffix : string)
    (converted_content : option string) : io frame (string * string) :=
  if truthy converted_content then
    let md := Path.replace tmp_path suffix ".md" in
    set_md_path md;;
    write_md md (md_write sv);;
    mret (md, "text/markdown")
  else mret (tmp_path, "application/octet-stream").

(** The [try] block; its value is [display_name]. *)
Definition try_block (sv : services) (store_name : string) (uploaded_file : uploaded)
    (tmp_path suffix preprocess_method vision_model : string) : io frame string :=
  '(converted_content, display_name) ←
      convert_step sv uploaded_file suffix preprocess_method vision_model;
  '(upload_path, mime_type) ← stage_step sv tmp_path suffix converted_content;
  file_obj ← lift (files_upload sv upload_path mime_type display_name);
  on_clock (λ c, (Ok tt, time_sleep 2 c));;
  import_operation ← lift (import_file sv store_name file_obj);
  on_clock (wait_for_operation (operations sv) import_operation default_timeout);;
  mret display_name.

(** The [finally] block. *)
Definition cleanup (tmp_path : string) (fr : frame) : world :=
  let wd := remove_if_exists tmp_path (w fr) in
  match md_path fr with
  | Some md => remove_if_exists md wd
  | None => wd
  end.

Definition suffix_of (uploaded_file : uploaded) : string :=
  lower (splitext_ext (name uploaded_file)).

Definition tmp_path_of (sv : services) (uploaded_file : uploaded) : string :=
  tmp_stem sv +:+ suffix_of uploaded_file.

(** The [try] block run on the freshly staged file: its outcome and
    the frame the [finally] block sees. *)
Definition run_try_block (sv : services) (store_name : string)
    (uploaded_file : uploaded) (preprocess_method vision_model : string)
    (wd : world) : result string * frame :=
  let tmp_path := tmp_path_of sv uploaded_file in
  try_block sv store_name uploaded_file tmp_path (suffix_of uploaded_file)
    preprocess_method vision_model (Frame (create_file tmp_path wd) None).

(** The staging of the upload comes before the [try]: when it raises,
    the exception leaves the function, and a file that was created
    stays ([delete=False]). *)
Definition upload_and_import_file (sv : services) (store_name : string)
    (uploaded_file : uploaded) (preprocess_method vision_model : string)
    (wd : world) : result (bool * string) * world :=
  let tmp_path := tmp_path_of sv uploaded_file in
  match stage sv with
  | OpenFails e => (Raise e, wd)
  | WriteFails e => (Raise e, create_file tmp_path wd)
  | Written =>
      match run_try_block sv store_name uploaded_file preprocess_method vision_model wd with
      | (Ok display_name, fr) => (Ok (true, display_name), cleanup tmp_path fr)
      | (Raise e, fr) => (Ok (false, exn_msg e), cleanup tmp_path fr)
      end
  end.

(** A step is quiet when it creates or removes no file and leaves
    [md_path] alone. *)
Definition quiet {A} (m : io frame A) : Prop :=
  ∀ fr, disk (w (snd (m fr))) = disk (w fr) ∧ md_path (snd (m fr)) = md_path fr.

(** Every file on the disk is one of [base] or the one [md_path]
    names. *)
Definition tracked (base : gset string) (fr : frame) : Prop :=
  ∀ p, p ∈ disk (w fr) → p ∈ base ∨ md_path fr = Some p.

(** Whatever the outcome of [m], a frame satisfying [P] before
    satisfies [Q] after. *)
Definition hoare {A} (P : frame → Prop) (m : io frame A) (Q : frame → Prop) : Prop :=
  ∀ fr, P fr → Q (snd (m fr)).

(** [P] looks at the disk and at [md_path] only. *)
Definition stable (P : frame → Prop) : Prop :=
  ∀ fr fr', disk (w fr') = disk (w fr) → md_path fr' = md_path fr → P fr → P fr'.

(** The frame in which the [try] block starts. *)
Definition staged (sv : services) (uploaded_file : uploaded) (wd : world) : frame :=
  Frame (create_file (tmp_path_of sv uploaded_file) wd) None.

(** What the pipeline returns after a conversion step that gave no
    text: the outcome of uploading [upload_path] and importing it. *)
Definition upload_outcome (sv : services) (store_name upload_path mime_type
    display_name : string) (c : clock) : bool * string :=
  match files_upload sv upload_path mime_type display_name with
  | Raise e => (false, exn_msg e)
  | Ok file_obj =>
      match import_file sv store_name file_obj with
      | Raise e => (false, exn_msg e)
      | Ok op =>
          match fst (wait_for_operation (operations sv) op default_timeout
                       (time_sleep 2 c)) with
          | Ok _ => (true, display_name)
          | Raise e => (false, exn_msg e)
          end
      end
  end.

End Ingest.

(** ** The upload widget (tab 2) *)

Module Uploader.

(** The [type] argument of [st.file_uploader]. *)
Definition accepted_types : list string :=
  ["pdf"; "xlsx"; "xls"; "txt"; "md"; "csv"; "docx"].

(** The widget takes a file when its lower-cased name ends with a dot
    and one of the listed types. *)
Definition accepts (filename : string) : bool :=
  existsb (λ t, Path.ends_with (Path.lower filename) ("." +:+ t)) accepted_types.

End Uploader.

(** ** Sample inputs *)

Module Samples.
Import Ledger Manage.

Definition store_a : string := "fileSearchStores/lecture-notes".
Definition store_b : string := "fileSearchStores/exam-papers".

Definition names_a : list string :=
  ["week1.pdf (마크다운 변환)"; "grades.xlsx (표 최적화)"; "week1.pdf (마크다운 변환)"].

Definition ledger_a : ledger_file :=
  Holds (PDict {[ store_a := files_value names_a ]}) I.

(** A ledger with the lists of two stores. *)
Definition names_b : list string := ["exam.pdf"].
Definition ledger_ab : ledger_file :=
  Holds (PDict (<[ store_b := files_value names_b ]>
                  {[ store_a := files_value names_a ]})) I.


Definition session_a : session := Session ledger_a (Some store_a) [].

Definition remote_down : exn := Exn "ServerError" "503 UNAVAILABLE".

(** Page texts as code points: a page number between blanks, and a
    run of [n] letters followed by a line feed. *)
Definition page_number_text : PdfProbe.pytext := [32; 32; 45; 49; 45; 32; 10]%N.
Definition letters (n : nat) : PdfProbe.pytext := replicate n 97%N ++ [10%N].

Definition unreadable : exn := Exn "FileDataError" "Failed to open file".

(** Three nearly blank pages; the fourth cannot be read. *)
Definition scanned_doc : PdfProbe.pdf_doc :=
  PdfProbe.PdfDoc
    [Ok page_number_text; Ok []; Ok page_number_text; Raise unreadable] (Ok tt).

(** Two pages whose text, stripped, has [n] characters: 60 letters,
    a line feed and [n - 61] letters. *)
Definition text_doc (n : nat) : PdfProbe.pdf_doc :=
  PdfProbe.PdfDoc [Ok (10%N :: letters 60); Ok (letters (n - 61))] (Ok tt).

(** A workbook with an empty sheet, a sheet holding only a header
    row, and two sheets with rows, one with a missing cell. *)
Definition grades : Excel.DataFrame :=
  Excel.Table ["name"; "score"] [[Some "Kim"; Some "91"]; [Some "Lee"; None]].
Definition rooms : Excel.DataFrame :=
  Excel.Table ["room"] [[Some "B-204"]].
Definition book : Excel.workbook :=
  [("성적", grades); ("Sheet2", Excel.Table [] []);
   ("header only", Excel.Table ["a"; "b"] []); ("rooms", rooms)].


(** A pipe-table renderer standing for tabulate: every line starts
    with a bar. *)
Definition pipe_row (cells : list string) : string :=
  foldr (λ c rest, "| " +:+ c +:+ " " +:+ rest) "|" cells.
Definition pipe_table (df : Excel.DataFrame) : string :=
  foldr (λ r rest, rest +:+ nl +:+ pipe_row (map (default "NaN") r))
        (pipe_row (Excel.columns df)) (rev (Excel.rows df)).

(** An import that stays pending for ever, and one that is done at
    the third poll; each poll takes a second. *)
Definition pending_op : Polling.operation := Polling.Operation "operations/import-7" false.
Definition done_op : Polling.operation := Polling.Operation "operations/import-7" true.
Definition stuck_api : Polling.operations_api :=
  Polling.OperationsApi (λ _, Ok pending_op) (λ _, 1).
Definition slow_api : Polling.operations_api :=
  Polling.OperationsApi (λ k, Ok (if 2 <=? k then done_op else pending_op)) (λ _, 1).
Definition clock0 : Polling.clock := Polling.Clock 1700000000 [] 0.

(** A spreadsheet upload whose workbook cannot be parsed, while the
    upload and the import go through. *)
Definition bad_workbook : exn := Exn "BadZipFile" "File is not a zip file".
Definition grades_upload : Ingest.uploaded := Ingest.Uploaded "grades.XLSX" "PK".
Definition macro_upload : Ingest.uploaded := Ingest.Uploaded "budget.xlsm" "PK".
Definition sv_bad_workbook : Ingest.services :=
  Ingest.Services "/tmp/tmpk3v9x_2a" Ingest.Written
    (Raise unreadable)
    (Raise bad_workbook)
    (λ df, Ok (pipe_table df))
    (Ok "# Title") (Ok "# Title") (Ok []) (λ _ _, Ok "text")
    Ingest.Written
    (λ _ _ _, Ok "files/x1y2z3")
    (λ _ _, Ok pending_op)
    slow_api.
Definition world0 : Ingest.world := Ingest.World ∅ clock0 [].

(** A digital PDF that converts and uploads, whose import never
    finishes. *)
Definition week1_upload : Ingest.uploaded := Ingest.Uploaded "week1.PDF" "%PDF-1.7".
Definition sv_import_stuck : Ingest.services :=
  Ingest.Services "/tmp/tmpk3v9x_2a" Ingest.Written
    (Ok (text_doc 100))
    (Raise bad_workbook)
    (λ df, Ok (pipe_table df))
    (Ok "# Week 1") (Ok "# Week 1") (Ok []) (λ _ _, Ok "text")
    Ingest.Written
    (λ _ _ _, Ok "files/x1y2z3")
    (λ _ _, Ok pending_op)
    stuck_api.

End Samples.

(** ** Listing stores and the store selector (sidebar) *)

Module Stores.

(** A store as listed by the API: its resource name and its display
    name, if it has one. *)
Record store := Store { store_name : string; store_display_name : option string }.

(** [listed] is the outcome of [list(client.file_search_stores.list())]. *)
Definition get_existing_stores (listed : result (list store))
    : io (list ui_event) (list store) := λ page,
  match listed with
  | Ok stores => (Ok stores, page)
  | Raise e => (Ok [], page ++ [UiError ("Store 목록 조회 실패: " +:+ exn_msg e)])
  end.

(** [s.display_name or s.name] *)
Definition label (s : store) : string :=
  match store_display_name s with
  | Some (String c d) => String c d
  | _ => store_name s
  end.

(** A Python dict as the list of its items in insertion order.
    [d[k] = v] replaces the value of a key that is present and adds a
    new key at the end. *)
Fixpoint dict_set {V} (k : string) (v : V) (d : list (string * V)) : list (string * V) :=
  match d with
  | [] => [(k, v)]
  | (k', v') :: d' =>
      if String.eqb k k' then (k, v) :: d' else (k', v') :: dict_set k v d'
  end.

(** [d.get(k)] *)
Fixpoint dict_get {V} (k : string) (d : list (string * V)) : option V :=
  match d with
  | [] => None
  | (k', v') :: d' => if String.eqb k k' then Some v' else dict_get k d'
  end.

Definition new_store_label : string := "➕ 새 저장소 만들기".

(** [{s.display_name or s.name: s.name for s in stores}], then the
    entry for a new store, which maps to [None]. *)
Definition store_options (stores : list store) : list (string * option string) :=
  dict_set new_store_label None
    (foldl (λ d s, dict_set (label s) (Some (store_name s)) d) [] stores).

(** The last store of the list that is shown under [l]. *)
Definition last_labelled (l : string) (stores : list store) : option store :=
  last (List.filter (λ s, String.eqb (label s) l) stores).

End Stores.

(** ** Visualisation and the chat history (tab 1) *)

Module Chat.

(** An entry of [st.session_state.history]. *)
Inductive turn : Type :=
| UserTurn (text : string)
| ModelTurn (text : string)
| ImageTurn (data caption : string).

(** [m['role']] *)
Definition role (m : turn) : string :=
  match m with
  | UserTurn _ => "user"
  | ModelTurn _ => "model"
  | ImageTurn _ _ => "image"
  end.

Definition is_image (m : turn) : bool :=
  match m with ImageTurn _ _ => true | _ => false end.

(** [m['parts'][0]['text']], read from text turns only. *)
Definition text_of (m : turn) : string :=
  match m with
  | UserTurn t | ModelTurn t => t
  | ImageTurn _ _ => EmptyString
  end.

(** The Gemini calls of the tab: the description of a diagram for a
    prompt, the parts of the image response as the inline data each
    carries, and the chunks of a streamed answer as the text each
    carries. *)
Record model_api := ModelApi {
  describe : string → result string;
  draw : string → string → result (list (option string));
  answer_stream : list turn → result (list (result (option string)))
}.

Definition describe_prompt (content : string) : string :=
  "다음 내용을 시각화할 다이어그램 프롬프트를 만들어줘." +:+ nl
  +:+ "규칙:" +:+ nl
  +:+ "- 텍스트 없이 도식만 표현" +:+ nl
  +:+ "- 색상과 구성요소를 구체적으로 설명" +:+ nl
  +:+ "- 영어로 작성 (이미지 생성 최적화)" +:+ nl
  +:+ nl
  +:+ "내용:" +:+ nl
  +:+ content.

(** [for part in img_resp.parts: if part.inline_data: return ...] *)
Fixpoint first_inline (parts : list (option string)) : option string :=
  match parts with
  | [] => None
  | Some data :: _ => Some data
  | None :: parts' => first_inline parts'
  end.

Definition generate_visualization (api : model_api) (content image_model caption : string)
    : io (list ui_event) (option turn) := λ page,
  let body :=
    match describe api (describe_prompt content) with
    | Raise e => Raise e
    | Ok desc =>
        match draw api image_model desc with
        | Raise e => Raise e
        | Ok parts =>
            Ok (match first_inline parts with
                | Some data => Some (ImageTurn data caption)
                | None => None
                end)
        end
    end in
  match body with
  | Ok r => (Ok r, page)
  | Raise e => (Ok None, page ++ [UiError ("이미지 생성 실패: " +:+ exn_msg e)])
  end.

(** The history and the page. *)
Record chat := ChatState { history : list turn; chat_page : list ui_event }.

(** [[m for m in history if m["role"] != "image"]] *)
Definition contents (h : list turn) : list turn :=
  List.filter (λ m, negb (is_image m)) h.

(** The text given to the second button: one line per text turn. *)
Definition context_text (h : list turn) : string :=
  Convert.join nl (map (λ m, role m +:+ ": " +:+ text_of m) (contents h)).

(** The two buttons are drawn when the last turn is a model turn;
    [content] is what the pressed button passes on. *)
Definition visualize (api : model_api) (image_model : string)
    (content : list turn → string → string) (caption : string) (s : chat) : chat :=
  match last (history s) with
  | Some (ModelTurn last_text) =>
      match generate_visualization api (content (history s) last_text) image_model
              caption (chat_page s) with
      | (Ok (Some img_data), pg) => ChatState (history s ++ [img_data]) pg
      | (_, pg) => ChatState (history s) pg
      end
  | _ => s
  end.

Definition visualize_answer (api : model_api) (image_model : string) : chat → chat :=
  visualize api image_model (λ _ last_text, last_text) "답변 시각화".

Definition visualize_context (api : model_api) (image_model : string) : chat → chat :=
  visualize api image_model (λ h _, context_text h) "전체 맥락 시각화".

(** [if prompt := st.chat_input(...)]: an empty input is no input. *)
Definition submit (prompt : string) (s : chat) : chat :=
  match prompt with
  | EmptyString => s
  | _ => ChatState (history s ++ [UserTurn prompt]) (chat_page s)
  end.

(** [for chunk in response: if chunk.text: full_text += chunk.text] *)
Fixpoint collect (chunks : list (result (option string))) (full_text : string)
    : result string :=
  match chunks with
  | [] => Ok full_text
  | Raise e :: _ => Raise e
  | Ok (Some (String c t)) :: chunks' => collect chunks' (full_text +:+ String c t)
  | Ok _ :: chunks' => collect chunks' full_text
  end.

(** The answer is generated when the last turn is a user turn. *)
Definition respond (api : model_api) (s : chat) : chat :=
  match last (history s) with
  | Some (UserTurn _) =>
      let body :=
        match answer_stream api (contents (history s)) with
        | Raise e => Raise e
        | Ok chunks => collect chunks EmptyString
        end in
      match body with
      | Ok full_text => ChatState (history s ++ [ModelTurn full_text]) (chat_page s)
      | Raise e => ChatState (history s) (chat_page s ++ [UiError ("오류 발생: " +:+ exn_msg e)])
      end
  | _ => s
  end.

(** The sidebar button that clears the conversation. *)
Definition clear (s : chat) : chat := ChatState [] (chat_page s).

(** What can happen to the conversation in one run of the script. *)
Inductive event : Type :=
| Submit (prompt : string)
| Respond (api : model_api)
| VisualizeAnswer (api : model_api) (image_model : string)
| VisualizeContext (api : model_api) (image_model : string)
| Clear.

Definition handle (s : chat) (ev : event) : chat :=
  match ev with
  | Submit prompt => submit prompt s
  | Respond api => respond api s
  | VisualizeAnswer api image_model => visualize_answer api image_model s
  | VisualizeContext api image_model => visualize_context api image_model s
  | Clear => clear s
  end.

(** The session starts with an empty history. *)
Definition run (events : list event) : chat := foldl handle (ChatState [] []) events.

(** A model turn comes directly after a user turn and an image turn
    directly after a model turn. *)
Definition follows (prev : option turn) (m : turn) : bool :=
  match m, prev with
  | UserTurn _, _ => true
  | ModelTurn _, Some (UserTurn _) => true
  | ImageTurn _ _, Some (ModelTurn _) => true
  | _, _ => false
  end.

Fixpoint ordered_from (prev : option turn) (h : list turn) : bool :=
  match h with
  | [] => true
  | m :: h' => follows prev m && ordered_from (Some m) h'
  end.

Definition ordered (h : list turn) : bool := ordered_from None h.

End Chat.

(** ** The upload button (tab 2) *)

Module Batch.
Import Ledger Ingest.

(** What the handler reads and writes. *)
Record app := App {
  a_world : world;
  a_ledger : ledger_file;
  a_store : option string         (* [st.session_state.current_store] *)
}.

Definition in_world {A} (m : world → result A * world) : io app A := λ s,
  let '(r, wd) := m (a_world s) in (r, App wd (a_ledger s) (a_store s)).

Definition in_ledger {A} (m : io ledger_file A) : io app A := λ s,
  let '(r, f) := m (a_ledger s) in (r, App (a_world s) f (a_store s)).

Definition show (e : ui_event) : io app unit :=
  in_world (λ wd, (Ok tt, World (disk wd) (clk wd) (page wd ++ [e]))).

Definition sleep (d : Z) : io app unit :=
  in_world (λ wd, (Ok tt, World (disk wd) (Polling.time_sleep d (clk wd)) (page wd))).

Definition set_store (c : option string) : io app unit := λ s,
  (Ok tt, App (a_world s) (a_ledger s) c).

(** [existing_files + success_files] *)
Definition py_concat (existing : pyval) (more : list string) : result pyval :=
  match existing with
  | PList l => Ok (PList (l ++ (PStr <$> more)))
  | _ => Raise (TypeError "unsupported operand type(s) for +")
  end.

(** The loop over the uploaded files, each with the outside world of
    its call. The progress bar and the status line, rewritten at every
    file, are left out. *)
Fixpoint upload_loop (store_name preprocess_method vision_model : string)
    (jobs : list (services * uploaded)) (success_files failed_files : list string)
    (wd : world) : result (list string * list string) * world :=
  match jobs with
  | [] => (Ok (success_files, failed_files), wd)
  | (sv, uploaded_file) :: jobs' =>
      match upload_and_import_file sv store_name uploaded_file preprocess_method
              vision_model wd with
      | (Ok (true, r), wd') =>
          upload_loop store_name preprocess_method vision_model jobs'
            (success_files ++ [r]) failed_files wd'
      | (Ok (false, r), wd') =>
          upload_loop store_name preprocess_method vision_model jobs'
            success_files (failed_files ++ [name uploaded_file +:+ ": " +:+ r]) wd'
      | (Raise e, wd') => (Raise e, wd')
      end
  end.

(** Every upload of the batch can be staged. *)
Definition all_staged (jobs : list (services * uploaded)) : Prop :=
  Forall (λ job, stage (fst job) = Written) jobs.

(** The body of [if st.button("🚀 업로드 시작")]; [create_store] is the
    outcome of [client.file_search_stores.create(...)] as the name of
    the new store. The list of failed files shown in an expander is
    left out. *)
Definition upload_button (create_store : result string)
    (jobs : list (services * uploaded)) (preprocess_method vision_model : string)
    (s : app) : app :=
  let body : io app unit :=
    store_name ← match a_store s with
                 | Some (String c n) => mret (String c n)
                 | _ => new_store ← lift create_store;
                        set_store (Some new_store);;
                        mret new_store
                 end;
    lists ← in_world (upload_loop store_name preprocess_method vision_model jobs [] []);
    match fst lists with
    | [] => mret tt
    | success_files =>
        existing_files ← in_ledger (get_file_list store_name);
        all_files ← lift (py_concat existing_files success_files);
        in_ledger (save_file_list store_name all_files);;
        show (UiSuccess ("🎉 " +:+ pretty (length success_files)
                         +:+ "개 파일 업로드 완료!"))
    end;;
    sleep 1;;
    show UiRerun in
  match body s with
  | (Ok _, s') => s'
  | (Raise e, s') => snd (show (UiError ("오류 발생: " +:+ exn_msg e)) s')
  end.

End Batch.

(** ** What the vision converter writes for a page *)

Module Vision.

(** The progress message for page [k], counted from 0, of [total]. *)
Definition page_toast (total k : nat) : ui_event :=
  UiToast ("📷 페이지 " +:+ pretty (k + 1) +:+ "/" +:+ pretty total +:+ " Vision 처리 중...").

(** The markdown for page [k], counted from 0. *)
Definition page_block (k : nat) (text : string) : string :=
  "## 페이지 " +:+ pretty (k + 1) +:+ nl +:+ nl +:+ text.

Definition separator : string := nl +:+ nl +:+ "---" +:+ nl +:+ nl.

End Vision.

(** ** Parts of the pipeline, named *)

Module Expected.
Import Ingest.

(** The display name the pipeline chooses: the file name, marked with
    the conversion path its suffix and the probe select. *)
Definition display_name_of (sv : services) (f : uploaded) : string :=
  if is_excel_suffix (suffix_of f) then name f +:+ " (표 최적화)"
  else if String.eqb (suffix_of f) ".pdf" then
    if PdfProbe.is_scanned_pdf (fitz_open sv) then name f +:+ " (Vision 추출)"
    else name f +:+ " (마크다운 변환)"
  else name f.

(** Steps 4 and 5 of the [try] block: upload, pause, import, wait. *)
Definition upload_steps (sv : services) (store_name upload_path mime_type
    display_name : string) : io frame string :=
  file_obj ← lift (files_upload sv upload_path mime_type display_name);
  on_clock (λ c, (Ok tt, Polling.time_sleep 2 c));;
  import_operation ← lift (import_file sv store_name file_obj);
  on_clock (Polling.wait_for_operation (operations sv) import_operation
              Polling.default_timeout);;
  mret display_name.

(** The path of the markdown file. *)
Definition md_path_of (sv : services) (f : uploaded) : string :=
  Path.replace (tmp_path_of sv f) (suffix_of f) ".md".

End Expected.

(** ** Occurrences of a text in a path *)

Module Occurs.

(** [old] occurs in [stem +:+ tail] starting at a character of
    [stem]. *)
Fixpoint matches_before (old stem tail : string) : bool :=
  match stem with
  | EmptyString => false
  | String _ stem' =>
      String.prefix old (stem +:+ tail) || matches_before old stem' tail
  end.

End Occurs.

(** ** More sample inputs *)

Module Samples2.
Import Samples.

Definition no_tabulate : exn :=
  Exn "ImportError" "Missing optional dependency 'tabulate'.".

(** The renderer when the tabulate package is not installed. *)
Definition broken_to_markdown : Excel.DataFrame → result string :=
  λ _, Raise no_tabulate.

Definition quota : exn := Exn "ClientError" "429 RESOURCE_EXHAUSTED".

(** A vision model that fails on the second page. *)
Definition flaky_generate : string → string → result string :=
  λ _ img, if String.eqb img "png-2" then Raise quota else Ok ("text of " +:+ img).
Definition steady_generate : string → string → result string :=
  λ _ img, Ok ("text of " +:+ img).

(** A plain text upload. *)
Definition notes_upload : Ingest.uploaded := Ingest.Uploaded "notes.txt" "hello".

(** A call whose staging fails after the file was created. *)
Definition disk_full : exn := Exn "OSError" "[Errno 28] No space left on device".
Definition sv_disk_full : Ingest.services :=
  Ingest.Services "/tmp/tmp9q2lw7_c" (Ingest.WriteFails disk_full)
    (Raise unreadable) (Raise bad_workbook) (λ df, Ok (pipe_table df))
    (Ok "# T") (Ok "# T") (Ok []) (λ _ _, Ok "text")
    Ingest.Written (λ _ _ _, Ok "files/q1") (λ _ _, Ok done_op) stuck_api.

(** A call in which everything works and the import is done at once. *)
Definition sv_fine : Ingest.services :=
  Ingest.Services "/tmp/tmpzz81h0_d" Ingest.Written
    (Ok (text_doc 100)) (Ok book) (λ df, Ok (pipe_table df))
    (Ok "# Week 1") (Ok "# Week 1 (docling)") (Ok []) (λ _ _, Ok "text")
    Ingest.Written (λ _ _ _, Ok "files/a1") (λ _ _, Ok done_op) stuck_api.

(** A call on a workbook with two empty sheets. *)
Definition sv_blank_book : Ingest.services :=
  Ingest.Services "/tmp/tmpb7k2m4_e" Ingest.Written
    (Raise unreadable)
    (Ok [("Sheet1", Excel.Table [] []); ("Sheet2", Excel.Table ["a"] [])])
    (λ df, Ok (pipe_table df))
    (Ok "# T") (Ok "# T") (Ok []) (λ _ _, Ok "text")
    Ingest.Written (λ _ _ _, Ok "files/e5") (λ _ _, Ok done_op) stuck_api.

(** A batch of three uploads: a spreadsheet that is uploaded as it
    is, a PDF whose import never finishes, and a PDF that goes through. *)
Definition three_jobs : list (Ingest.services * Ingest.uploaded) :=
  [(sv_bad_workbook, grades_upload); (sv_import_stuck, week1_upload);
   (sv_fine, week1_upload)].

(** A model that answers in three chunks and draws one image. *)
Definition chat_api : Chat.model_api :=
  Chat.ModelApi (λ _, Ok "a diagram")
    (λ _ _, Ok [None; Some "png-bytes"; Some "other"])
    (λ _, Ok [Ok (Some "1장부터 "); Ok None; Ok (Some "6장까지입니다.")]).

Definition app0 : Batch.app := Batch.App world0 ledger_a (Some store_a).

Definition two_stores : list Stores.store :=
  [Stores.Store "fileSearchStores/a1" (Some "Lectures");
   Stores.Store "fileSearchStores/b2" None;
   Stores.Store "fileSearchStores/c3" (Some "Lectures")].

End Samples2.

(** * Properties *)

(** ** The ledger *)

Section LedgerFacts.
Import Ledger.

Ltac run_io :=
  unfold save_file_list, get_file_list, delete_file_list, load_config,
    lift, get_state, put_state, mbind, mret, io_bind, io_ret;
  cbn [config_exists json_load py_setitem py_get py_contains py_delitem fst snd].

(** *** Values the encoder can write *)

Lemma encodable_dict d :
  Is_true (encodable (PDict d)) ↔ map_Forall (λ _ v, Is_true (encodable v)) d.
Proof.
  cbn [encodable].
  apply (map_fold_weak_ind
           (λ r m, Is_true r ↔ map_Forall (λ _ v, Is_true (encodable v)) m)).
  - split; [intros _; apply map_Forall_empty | done].
  - intros i x m r Hi IH. rewrite map_Forall_insert by done.
    rewrite andb_True. by rewrite IH.
Qed.



Lemma encodable_insert k v d :
  Is_true (encodable (PDict d)) → Is_true (encodable v) →
  Is_true (encodable (PDict (<[k:=v]> d))).
Proof.
  rewrite !encodable_dict. intros Hd Hv. by apply map_Forall_insert_2.
Qed.


Lemma encodable_delete k d :
  Is_true (encodable (PDict d)) → Is_true (encodable (PDict (delete k d))).
Proof. rewrite !encodable_dict. apply map_Forall_delete. Qed.


Lemma encodable_empty : Is_true (encodable (PDict ∅)).
Proof. exact I. Qed.

(** Two files holding the same value are the same file. *)
Lemma Holds_ext v1 v2 H1 H2 : v1 = v2 → Holds v1 H1 = Holds v2 H2.
Proof. intros ->. f_equal. apply proof_irrel. Qed.

(** *** The write *)

Lemma json_dump_ok config (Hv : Is_true (encodable config)) f :
  json_dump config f = (Ok tt, Holds config Hv).
Proof.
  unfold json_dump. destruct (decide (Is_true (encodable config))) as [H|H].
  - unfold put_state. f_equal. by apply Holds_ext.
  - contradiction.
Qed.

(** A value the encoder cannot write: the file is cut off. *)
Lemma json_dump_raise config f :
  ¬ Is_true (encodable config) →
  json_dump config f = (Raise UnicodeEncodeError, Garbled).
Proof.
  intros Hn. unfold json_dump.
  destruct (decide (Is_true (encodable config))) as [H|H];
    [contradiction | reflexivity].
Qed.

Lemma json_dump_state config f : snd (json_dump config f) = dumped config.
Proof.
  unfold dumped, json_dump.
  destruct (decide (Is_true (encodable config))); reflexivity.
Qed.

Lemma dumped_Holds v (Hv : Is_true (encodable v)) : dumped v = Holds v Hv.
Proof. unfold dumped. by rewrite (json_dump_ok v Hv). Qed.

Lemma dumped_Garbled v : ¬ Is_true (encodable v) → dumped v = Garbled.
Proof. intros Hn. unfold dumped. by rewrite json_dump_raise. Qed.

(** *** Saving and reading *)

Lemma save_file_list_on_dict store_id files d Hd :
  save_file_list store_id files (Holds (PDict d) Hd)
  = json_dump (PDict (<[store_id:=files]> d)) (Holds (PDict d) Hd).
Proof. reflexivity. Qed.


Lemma get_file_list_on_dict store_id d Hd :
  get_file_list store_id (Holds (PDict d) Hd)
  = (Ok (default (PList []) (d !! store_id)), Holds (PDict d) Hd).
Proof. reflexivity. Qed.

(** What [save_file_list] leaves on disk: a ledger that cannot be
    updated is left as it was, the others are written anew. *)
Lemma save_file_list_state store_id files f :
  snd (save_file_list store_id files f)
  = match f with
    | Missing => dumped (PDict (<[store_id:=files]> ∅))
    | Holds (PDict d) _ => dumped (PDict (<[store_id:=files]> d))
    | _ => f
    end.
Proof.
  destruct f as [| |[] Hv]; try reflexivity.
  rewrite save_file_list_on_dict. apply json_dump_state.
Qed.






Lemma files_value_inj : Inj (=) (=) files_value.
Proof.
  intros l1 l2 H. unfold files_value in H. injection H as H.
  revert l2 H. induction l1 as [|x l1 IH]; intros [|y l2] H;
    try discriminate; [reflexivity|].
  injection H as -> H. f_equal. by apply IH.
Qed.





Lemma delete_file_list_on_dict store_id d Hd :
  delete_file_list store_id (Holds (PDict d) Hd)
  = (Ok tt, if bool_decide (is_Some (d !! store_id))
            then Holds (PDict (delete store_id d)) (encodable_delete store_id d Hd)
            else Holds (PDict d) Hd).
Proof.
  unfold delete_file_list. run_io.
  destruct (bool_decide (is_Some (d !! store_id))); [|reflexivity].
  apply json_dump_ok.
Qed.

Lemma delete_file_list_on_missing store_id :
  delete_file_list store_id Missing = (Ok tt, Missing).
Proof.
  unfold delete_file_list. run_io.
  rewrite lookup_empty. rewrite bool_decide_eq_false_2; [reflexivity|].
  intros [? ?]; discriminate.
Qed.

(** After [delete_file_list] on a readable ledger the store has no
    entry. *)
Lemma delete_file_list_removes store_id f :
  ledger_ok f →
  fst (delete_file_list store_id f) = Ok tt
  ∧ ledger_ok (snd (delete_file_list store_id f))
  ∧ (∀ d Hd, snd (delete_file_list store_id f) = Holds (PDict d) Hd →
             d !! store_id = None)
  ∧ fst (get_file_list store_id (snd (delete_file_list store_id f))) = Ok (PList []).
Proof.
  destruct f as [| |[] Hv]; try contradiction; intros _.
  - rewrite delete_file_list_on_missing. cbn [fst snd].
    repeat split; try discriminate.
  - rewrite delete_file_list_on_dict. cbn [fst snd].
    case_bool_decide as Hin.
    + repeat split.
      * intros d' Hd' [= <-]. apply lookup_delete_eq.
      * rewrite get_file_list_on_dict. cbn [fst]. by rewrite lookup_delete_eq.
    + assert (d !! store_id = None) as Hnone.
      { destruct (d !! store_id) eqn:E; [|reflexivity]. exfalso. apply Hin. eauto. }
      repeat split.
      * intros d' Hd' [= <-]. exact Hnone.
      * rewrite get_file_list_on_dict. cbn [fst]. by rewrite Hnone.
Qed.

End LedgerFacts.

(** ** Store deletion *)

Section ManageFacts.
Import Ledger Manage.

Lemma delete_store_button_remote_ok store_id s :
  ledger (delete_store_button (Ok tt) store_id s)
  = snd (delete_file_list store_id (ledger s)).
Proof.
  unfold delete_store_button, in_ledger, show, set_current_store, lift,
    mbind, io_bind.
  destruct (delete_file_list store_id (ledger s)) as [[[]|e] f']; reflexivity.
Qed.

Lemma delete_store_button_remote_raise e store_id s :
  ledger (delete_store_button (Raise e) store_id s) = ledger s.
Proof. reflexivity. Qed.

(** The button in the list of stores orders the two deletions in the
    same way. *)
Lemma delete_listed_store_button_remote_raise e store_name s :
  ledger (delete_listed_store_button (Raise e) store_name s) = ledger s.
Proof. reflexivity. Qed.

(** C4, as stated, fails: when the remote delete raises, the handler
    never reaches [delete_file_list], and the entry is still read
    back. *)
Lemma delete_store_button_keeps_entry_on_remote_error :
  fst (get_file_list Samples.store_a
         (ledger (delete_store_button (Raise Samples.remote_down)
                    Samples.store_a Samples.session_a)))
  = Ok (files_value Samples.names_a)
  ∧ fst (get_file_list Samples.store_a
           (ledger (delete_store_button (Raise Samples.remote_down)
                      Samples.store_a Samples.session_a)))
    ≠ Ok (PList []).
Proof.
  rewrite delete_store_button_remote_raise.
  unfold Samples.session_a, Samples.ledger_a. cbn [ledger].
  rewrite get_file_list_on_dict. cbn [fst].
  rewrite lookup_singleton_eq. cbn [default].
  split; [reflexivity | discriminate].
Qed.

(** C4, amended. When the remote delete call succeeded and the ledger
    is readable, the handler removes the ledger entry of the store,
    and [get_file_list] then returns the empty list; when the remote
    delete call raised, the ledger file is left as it was. *)
Theorem delete_store_button_ledger (store_id : string) (s : session) :
  ledger_ok (ledger s) →
  (∀ d Hd, ledger (delete_store_button (Ok tt) store_id s) = Holds (PDict d) Hd →
           d !! store_id = None)
  ∧ fst (get_file_list store_id (ledger (delete_store_button (Ok tt) store_id s)))
    = Ok (PList [])
  ∧ (∀ e, ledger (delete_store_button (Raise e) store_id s) = ledger s).
Proof.
  intros Hok. rewrite delete_store_button_remote_ok.
  destruct (delete_file_list_removes store_id (ledger s) Hok) as (_ & _ & Hgone & Hget).
  repeat split; [exact Hgone | exact Hget].
Qed.

Lemma delete_store_button_ledger_witness :
  fst (get_file_list Samples.store_a
         (ledger (delete_store_button (Ok tt) Samples.store_a Samples.session_a)))
  = Ok (PList []).
Proof.
  apply (delete_store_button_ledger Samples.store_a Samples.session_a). exact I.
Defined.

End ManageFacts.

(** ** The scanned-PDF probe *)

Section PdfProbeFacts.
Import PdfProbe.

Lemma read_pages_all_ok (texts : list pytext) (acc : pytext) :
  read_pages (Ok <$> texts) acc = Ok (acc ++ concat texts).
Proof.
  revert acc. induction texts as [|t texts IH]; intros acc; cbn.
  - by rewrite app_nil_r.
  - rewrite IH. by rewrite <- app_assoc.
Qed.

Lemma read_pages_raises (ps : list (result pytext)) (acc : pytext) i e :
  ps !! i = Some (Raise e) → ∃ e', read_pages ps acc = Raise e'.
Proof.
  revert acc i. induction ps as [|p ps IH]; intros acc i Hi; [discriminate|].
  destruct p as [t|e0]; cbn.
  - destruct i as [|i]; [discriminate|]. exact (IH _ i Hi).
  - eauto.
Qed.

Lemma probe_all_ok (doc : pdf_doc) (texts : list pytext) :
  take 3 (pages doc) = Ok <$> texts →
  close_result doc = Ok tt →
  probe (Ok doc) = Ok (bool_decide (length (strip (concat texts)) < 100)).
Proof.
  intros Hpages Hclose. unfold probe. cbn.
  rewrite Hpages, read_pages_all_ok, Hclose. reflexivity.
Qed.

(** C5. For a PDF that opens, whose first three pages give their text
    and that closes, [is_scanned_pdf] is true exactly when the text of
    these pages, concatenated and stripped, is shorter than 100
    characters, and false exactly from 100 characters on. *)
Theorem is_scanned_pdf_threshold (doc : pdf_doc) (texts : list pytext) :
  take 3 (pages doc) = Ok <$> texts →
  close_result doc = Ok tt →
  (is_scanned_pdf (Ok doc) = true ↔ length (strip (concat texts)) < 100)
  ∧ (is_scanned_pdf (Ok doc) = false ↔ 100 ≤ length (strip (concat texts))).
Proof.
  intros Hpages Hclose. unfold is_scanned_pdf.
  rewrite (probe_all_ok doc texts Hpages Hclose).
  case_bool_decide; split; split; intros; try done; lia.
Qed.

Lemma is_scanned_pdf_threshold_witness :
  is_scanned_pdf (Ok Samples.scanned_doc) = true
  ∧ is_scanned_pdf (Ok (Samples.text_doc 99)) = true
  ∧ is_scanned_pdf (Ok (Samples.text_doc 100)) = false.
Proof.
  split; [|split].
  - apply (is_scanned_pdf_threshold Samples.scanned_doc
             [Samples.page_number_text; []; Samples.page_number_text]
             eq_refl eq_refl).
    vm_compute; lia.
  - apply (is_scanned_pdf_threshold (Samples.text_doc 99)
             [10%N :: Samples.letters 60; Samples.letters 38] eq_refl eq_refl).
    vm_compute; lia.
  - apply (is_scanned_pdf_threshold (Samples.text_doc 100)
             [10%N :: Samples.letters 60; Samples.letters 39] eq_refl eq_refl).
    vm_compute; lia.
Defined.

(** C6. When opening the PDF raises, or loading or reading one of the
    first three pages raises, or closing it raises, [is_scanned_pdf]
    returns false. *)
Theorem is_scanned_pdf_fail_open (opened : result pdf_doc) :
  (∃ e, opened = Raise e)
  ∨ (∃ doc i e, opened = Ok doc ∧ i < 3 ∧ pages doc !! i = Some (Raise e))
  ∨ (∃ doc e, opened = Ok doc ∧ close_result doc = Raise e) →
  is_scanned_pdf opened = false.
Proof.
  intros [[e ->] | [(doc & i & e & -> & Hi & Hpage) | (doc & e & -> & Hclose)]].
  - reflexivity.
  - unfold is_scanned_pdf, probe. cbn.
    destruct (read_pages_raises (take 3 (pages doc)) [] i e) as [e' ->];
      [|reflexivity].
    rewrite lookup_take_lt by lia. exact Hpage.
  - unfold is_scanned_pdf, probe. cbn.
    destruct (read_pages _ _); [|reflexivity].
    cbn. rewrite Hclose. reflexivity.
Qed.

Lemma is_scanned_pdf_fail_open_witness :
  is_scanned_pdf (Raise Samples.unreadable) = false
  ∧ is_scanned_pdf
      (Ok (PdfDoc [Ok Samples.page_number_text; Raise Samples.unreadable] (Ok tt)))
    = false.
Proof.
  split.
  - apply is_scanned_pdf_fail_open. left. by exists Samples.unreadable.
  - apply is_scanned_pdf_fail_open. right. left.
    exists (PdfDoc [Ok Samples.page_number_text; Raise Samples.unreadable] (Ok tt)),
      1, Samples.unreadable.
    split; [reflexivity | split; [lia | reflexivity]].
Defined.

End PdfProbeFacts.

(** ** Spreadsheet conversion *)

Section TextFacts.
Import Text.









End TextFacts.

Section ExcelFacts.
Import Text Excel.

Variable to_markdown : DataFrame → result string.
Variable table : DataFrame → string.



Lemma blank_missing_cells df :
  columns (blank_missing df) = columns df
  ∧ length (rows (blank_missing df)) = length (rows df)
  ∧ Forall (Forall (λ c, c ≠ None)) (rows (blank_missing df))
  ∧ ∀ i j c, rows df !! i ≫= (.!! j) = Some c →
             rows (blank_missing df) !! i ≫= (.!! j) = Some (Some (shown c)).
Proof.
  unfold blank_missing. cbn [columns rows]. repeat split.
  - apply length_map.
  - apply Forall_map, Forall_true. intros row.
    apply Forall_map, Forall_true. by intros c.
  - intros i j c. rewrite list_lookup_fmap.
    destruct (rows df !! i) as [row|]; [|discriminate]. cbn.
    rewrite list_lookup_fmap. intros ->. reflexivity.
Qed.








End ExcelFacts.


(** ** Waiting for an operation *)

Section PollingFacts.
Import Polling.

(** An operation that is done is returned at once: no sleep, no poll,
    the clock untouched. *)
Lemma wait_for_operation_done api op timeout c :
  done op = true →
  wait_for_operation api op timeout c = (Ok op, c).
Proof.
  intros Hdone. unfold wait_for_operation. simp wait_loop.
  rewrite Hdone. reflexivity.
Qed.

Lemma wait_loop_never_done api op start_time timeout c :
  never_done api → done op = false →
  ∃ c', wait_loop api op start_time timeout c = (Raise TimeoutError, c')
        ∧ (timeout < now c' - start_time)%Z.
Proof.
  intros Hnever.
  funelim (wait_loop api op start_time timeout c); intros Hdone.
  - congruence.
  - exists c. split; [reflexivity | lia].
  - destruct (Hnever (polls (time_sleep 3 c))) as (op'' & Hget & Hpending).
    rewrite Heq in Hget. injection Hget as ->.
    apply H; assumption.
  - destruct (Hnever (polls (time_sleep 3 c))) as (op'' & Hget & _).
    rewrite Heq in Hget. discriminate.
Qed.

(** An operation that never reports done makes the wait raise, for
    every timeout, once the time spent exceeds the timeout; the
    message of the error is the same text whatever the timeout. *)
Lemma wait_for_operation_never_done api op timeout c :
  never_done api → done op = false →
  ∃ c', wait_for_operation api op timeout c
        = (Raise (Exn "TimeoutError" "작업 시간 초과 (5분)"), c')
        ∧ (timeout < now c' - now c)%Z.
Proof.
  intros Hnever Hdone. unfold wait_for_operation.
  exact (wait_loop_never_done api op (now c) timeout c Hnever Hdone).
Qed.

(** C2, second half, on a wait configured with a budget of 60
    seconds: the error raised speaks of five minutes, as it does for
    300 seconds. *)
Lemma wait_for_operation_message_fixed :
  fst (wait_for_operation Samples.stuck_api Samples.pending_op 60 Samples.clock0)
  = Raise (Exn "TimeoutError" "작업 시간 초과 (5분)")
  ∧ fst (wait_for_operation Samples.stuck_api Samples.pending_op 300 Samples.clock0)
    = Raise (Exn "TimeoutError" "작업 시간 초과 (5분)")
  ∧ now (snd (wait_for_operation Samples.stuck_api Samples.pending_op 60 Samples.clock0))
    = (now Samples.clock0 + 64)%Z.
Proof. repeat split; vm_compute; reflexivity. Qed.

End PollingFacts.

(** ** The ingestion pipeline *)

Section IngestFacts.
Import Ingest Polling.

Lemma quiet_ret {A} (a : A) : quiet (mret a).
Proof. intros fr. split; reflexivity. Qed.

Lemma quiet_bind {A B} (m : io frame A) (f : A → io frame B) :
  quiet m → (∀ a, quiet (f a)) → quiet (m ≫= f).
Proof.
  intros Hm Hf fr. unfold mbind, io_bind.
  destruct (Hm fr) as [Hd Hp].
  destruct (m fr) as [[a|e] fr']; cbn [snd] in *.
  - destruct (Hf a fr') as [Hd' Hp']. split; congruence.
  - split; assumption.
Qed.

Lemma quiet_lift {A} (r : result A) : quiet (lift r).
Proof. intros fr. split; reflexivity. Qed.

Lemma quiet_on_page {A} (m : io (list ui_event) A) : quiet (on_page m).
Proof. intros fr. unfold on_page. destruct (m _). split; reflexivity. Qed.

Lemma quiet_on_clock {A} (m : io clock A) : quiet (on_clock m).
Proof. intros fr. unfold on_clock. destruct (m _). split; reflexivity. Qed.

Lemma quiet_toast msg : quiet (toast msg).
Proof. apply quiet_on_page. Qed.

Ltac quiet_steps :=
  repeat first
    [ apply quiet_ret | apply quiet_lift | apply quiet_toast
    | apply quiet_on_page | apply quiet_on_clock
    | apply quiet_bind; [| intros ? ] ].

Lemma quiet_convert_step sv f suffix pm vm :
  quiet (convert_step sv f suffix pm vm).
Proof.
  unfold convert_step.
  destruct (is_excel_suffix suffix); [quiet_steps|].
  destruct (String.eqb suffix ".pdf"); [|quiet_steps].
  destruct (PdfProbe.is_scanned_pdf _); [quiet_steps|].
  apply quiet_bind; [|intros ?; quiet_steps].
  destruct (String.eqb pm _); quiet_steps.
Qed.

Lemma quiet_rest sv store_name display_name upload_path mime_type :
  quiet (file_obj ← lift (files_upload sv upload_path mime_type display_name);
         on_clock (λ c, (Ok tt, time_sleep 2 c));;
         import_operation ← lift (import_file sv store_name file_obj);
         on_clock (wait_for_operation (operations sv) import_operation default_timeout);;
         mret display_name).
Proof. quiet_steps. Qed.

Lemma hoare_quiet {A} (P : frame → Prop) (m : io frame A) :
  stable P → quiet m → hoare P m P.
Proof.
  intros Hs Hq fr HP. destruct (Hq fr) as [Hd Hm]. exact (Hs _ _ Hd Hm HP).
Qed.

Lemma hoare_bind {A B} (P Q R : frame → Prop) (m : io frame A) (f : A → io frame B) :
  hoare P m Q → (∀ fr, Q fr → R fr) → (∀ a, hoare Q (f a) R) →
  hoare P (m ≫= f) R.
Proof.
  intros Hm HQR Hf fr HP. unfold mbind, io_bind.
  specialize (Hm fr HP).
  destruct (m fr) as [[a|e] fr']; cbn [snd] in *.
  - apply Hf, Hm.
  - apply HQR, Hm.
Qed.

Lemma stable_tracked base : stable (tracked base).
Proof. intros fr fr' Hd Hm Ht p. rewrite Hd, Hm. apply Ht. Qed.

Lemma stable_fresh base : stable (λ fr, tracked base fr ∧ md_path fr = None).
Proof.
  intros fr fr' Hd Hm [Ht Hn]. split; [|congruence].
  exact (stable_tracked base fr fr' Hd Hm Ht).
Qed.

Lemma tracked_write_md base md o fr :
  md_path fr = Some md → tracked base fr → tracked base (snd (write_md md o fr)).
Proof.
  intros Hmd Ht.
  assert (tracked base (Frame (create_file md (w fr)) (md_path fr))) as Hcreated.
  { intros p Hp. cbn in Hp. apply elem_of_union in Hp as [Hp|Hp].
    - apply elem_of_singleton in Hp as ->. right. exact Hmd.
    - apply Ht, Hp. }
  destruct o; cbn; auto.
Qed.

(** The markdown file is written only after [md_path] names it. *)
Lemma hoare_stage_step base sv tmp suffix content :
  hoare (λ fr, tracked base fr ∧ md_path fr = None)
        (stage_step sv tmp suffix content) (tracked base).
Proof.
  intros fr [Ht Hnone]. unfold stage_step.
  destruct (truthy content); [|exact Ht].
  set (md := Path.replace tmp suffix ".md").
  assert (tracked base (Frame (w fr) (Some md))) as Ht'.
  { intros p Hp. destruct (Ht p Hp) as [?|Hold]; [by left|congruence]. }
  pose proof (tracked_write_md base md (md_write sv) (Frame (w fr) (Some md))
                eq_refl Ht') as Hw.
  unfold mbind, io_bind, set_md_path. cbn [snd].
  destruct (write_md md (md_write sv) (Frame (w fr) (Some md))) as [[[]|e] fr2];
    exact Hw.
Qed.

Lemma hoare_try_block base sv store_name f tmp suffix pm vm :
  hoare (λ fr, tracked base fr ∧ md_path fr = None)
        (try_block sv store_name f tmp suffix pm vm) (tracked base).
Proof.
  unfold try_block.
  eapply hoare_bind.
  - apply hoare_quiet; [apply stable_fresh | apply quiet_convert_step].
  - intros fr [Ht _]. exact Ht.
  - intros [content display_name].
    eapply hoare_bind.
    + apply hoare_stage_step.
    + auto.
    + intros [upload_path mime_type].
      apply hoare_quiet; [apply stable_tracked | apply quiet_rest].
Qed.

Lemma disk_remove_if_exists p wd : disk (remove_if_exists p wd) = disk wd ∖ {[p]}.
Proof. unfold remove_if_exists. case_decide; cbn; set_solver. Qed.

Lemma disk_cleanup tmp fr :
  disk (cleanup tmp fr)
  = match md_path fr with
    | Some md => disk (w fr) ∖ {[tmp]} ∖ {[md]}
    | None => disk (w fr) ∖ {[tmp]}
    end.
Proof.
  unfold cleanup. destruct (md_path fr); by rewrite !disk_remove_if_exists.
Qed.

Lemma upload_and_import_file_staged sv store_name f pm vm wd :
  stage sv = Written →
  upload_and_import_file sv store_name f pm vm wd
  = (Ok match fst (run_try_block sv store_name f pm vm wd) with
        | Ok display_name => (true, display_name)
        | Raise e => (false, exn_msg e)
        end,
     cleanup (tmp_path_of sv f) (snd (run_try_block sv store_name f pm vm wd))).
Proof.
  intros Hstage. unfold upload_and_import_file. rewrite Hstage.
  destruct (run_try_block sv store_name f pm vm wd) as [[dn|e] fr]; reflexivity.
Qed.

(** The call returns exactly when the upload could be staged. *)
Lemma upload_and_import_file_returns sv store_name f pm vm wd :
  is_ok (fst (upload_and_import_file sv store_name f pm vm wd)) = true
  ↔ stage sv = Written.
Proof.
  split.
  - unfold upload_and_import_file. destruct (stage sv); [reflexivity|discriminate..].
  - intros H. by rewrite upload_and_import_file_staged.
Qed.

(** C3. Once the upload is staged the call returns, and whenever it
    returns, with success or with the failure of any later step, the
    staged copy of the upload does not exist, the markdown file named
    by [md_path] does not exist, and no file exists that did not
    exist before the call. *)
Theorem upload_and_import_file_removes_staged (sv : services) (store_name : string)
    (f : uploaded) (pm vm : string) (wd : world) :
  (stage sv = Written →
   is_ok (fst (upload_and_import_file sv store_name f pm vm wd)) = true)
  ∧ (∀ r wd', upload_and_import_file sv store_name f pm vm wd = (Ok r, wd') →
       (tmp_path_of sv f ∉ disk wd')
       ∧ (∀ md, md_path (snd (run_try_block sv store_name f pm vm wd)) = Some md →
                md ∉ disk wd')
       ∧ (∀ p, p ∈ disk wd' → p ∈ disk wd)).
Proof.
  split; [apply upload_and_import_file_returns|].
  intros r wd' Hcall.
  assert (stage sv = Written) as Hstage.
  { apply (upload_and_import_file_returns sv store_name f pm vm wd).
    by rewrite Hcall. }
  rewrite (upload_and_import_file_staged _ _ _ _ _ _ Hstage) in Hcall.
  injection Hcall as _ <-.
  set (fr := snd (run_try_block sv store_name f pm vm wd)).
  rewrite disk_cleanup.
  assert (tracked ({[tmp_path_of sv f]} ∪ disk wd) fr) as Ht.
  { apply hoare_try_block. split; [|reflexivity]. intros p Hp. left. exact Hp. }
  split; [|split].
  - destruct (md_path fr); set_solver.
  - intros md ->. set_solver.
  - intros p Hp. destruct (md_path fr) as [md|] eqn:Hmd.
    + assert (p ∈ disk (w fr)) as Hin by set_solver.
      destruct (Ht p Hin) as [Hbase|Hp']; [set_solver|].
      rewrite Hmd in Hp'. injection Hp' as ->. set_solver.
    + assert (p ∈ disk (w fr)) as Hin by set_solver.
      destruct (Ht p Hin) as [Hbase|Hp']; [set_solver|].
      rewrite Hmd in Hp'. discriminate.
Qed.

Lemma upload_and_import_file_removes_staged_witness :
  fst (upload_and_import_file Samples.sv_import_stuck Samples.store_a
         Samples.week1_upload "pymupdf4llm (빠름)" "gemini-2.0-flash" Samples.world0)
  = Ok (false, "작업 시간 초과 (5분)")
  ∧ md_path (snd (run_try_block Samples.sv_import_stuck Samples.store_a
                    Samples.week1_upload "pymupdf4llm (빠름)" "gemini-2.0-flash"
                    Samples.world0))
    = Some "/tmp/tmpk3v9x_2a.md"
  ∧ ("/tmp/tmpk3v9x_2a.pdf"
     ∉ disk (snd (upload_and_import_file Samples.sv_import_stuck Samples.store_a
                    Samples.week1_upload "pymupdf4llm (빠름)" "gemini-2.0-flash"
                    Samples.world0)))
  ∧ ("/tmp/tmpk3v9x_2a.md"
     ∉ disk (snd (upload_and_import_file Samples.sv_import_stuck Samples.store_a
                    Samples.week1_upload "pymupdf4llm (빠름)" "gemini-2.0-flash"
                    Samples.world0))).
Proof.
  destruct (upload_and_import_file_removes_staged Samples.sv_import_stuck
              Samples.store_a Samples.week1_upload "pymupdf4llm (빠름)"
              "gemini-2.0-flash" Samples.world0) as [_ Hclean].
  destruct (Hclean (false, "작업 시간 초과 (5분)")
              (snd (upload_and_import_file Samples.sv_import_stuck Samples.store_a
                      Samples.week1_upload "pymupdf4llm (빠름)" "gemini-2.0-flash"
                      Samples.world0)))
    as (Htmp & Hmd & _); [vm_compute; reflexivity|].
  split; [vm_compute; reflexivity|].
  split; [vm_compute; reflexivity|].
  split; [exact Htmp | apply Hmd; vm_compute; reflexivity].
Defined.

(** The converters report a failure on the page and return [None]:
    they never raise. *)
Lemma convert_excel_to_markdown_returns read to_markdown pg :
  ∃ c pg', Excel.convert_excel_to_markdown read to_markdown pg = (Ok c, pg').
Proof.
  unfold Excel.convert_excel_to_markdown.
  destruct read as [xls|e]; [destruct (Excel.sheets_loop _ _ _)|]; eauto.
Qed.

Lemma guarded_returns missing failed engine pg :
  ∃ c pg', Convert.guarded missing failed engine pg = (Ok c, pg').
Proof.
  unfold Convert.guarded.
  destruct engine as [md|e]; [|destruct (Convert.is_import_error e)]; eauto.
Qed.

Lemma convert_with_gemini_vision_returns rendered generate model pg :
  ∃ c pg', Convert.convert_with_gemini_vision rendered generate model pg = (Ok c, pg').
Proof.
  unfold Convert.convert_with_gemini_vision.
  match goal with |- context [match ?body with _ => _ end] =>
    destruct body as [[md|e] pg'] end;
    [|destruct (Convert.is_import_error e)]; eauto.
Qed.

Lemma convert_step_returns sv f suffix pm vm fr :
  ∃ c dn fr', convert_step sv f suffix pm vm fr = (Ok (c, dn), fr').
Proof.
  unfold convert_step, toast, on_page, mbind, mret, io_bind, io_ret.
  destruct (is_excel_suffix suffix).
  { cbn. destruct (convert_excel_to_markdown_returns (read_excel sv) (to_markdown sv)
                     (page (w fr) ++ [UiToast ("📊 엑셀 '" +:+ name f +:+ "' 변환 중...")]))
      as (c & pg' & ->). eauto. }
  destruct (String.eqb suffix ".pdf"); [|eauto].
  destruct (PdfProbe.is_scanned_pdf _).
  { cbn. destruct (convert_with_gemini_vision_returns (pdf2image_render sv)
                     (generate_content sv) vm
                     (page (w fr) ++ [UiToast "📷 스캔 PDF 감지 → Gemini Vision 사용"]))
      as (c & pg' & ->). eauto. }
  destruct (String.eqb pm _); cbn.
  - destruct (guarded_returns
                "Docling이 설치되지 않았습니다. `pip install docling`"
                "Docling 변환 실패: " (docling_engine sv)
                (page (w fr) ++ [UiToast ("🔬 Docling으로 '" +:+ name f +:+ "' 변환 중...")]))
      as (c & pg' & Hc).
    unfold Convert.convert_with_docling. rewrite Hc. eauto.
  - destruct (guarded_returns
                "pymupdf4llm이 설치되지 않았습니다. `pip install pymupdf4llm`"
                "pymupdf4llm 변환 실패: " (pymupdf4llm_engine sv)
                (page (w fr) ++ [UiToast ("⚡ pymupdf4llm으로 '" +:+ name f +:+ "' 변환 중...")]))
      as (c & pg' & Hc).
    unfold Convert.convert_with_pymupdf4llm. rewrite Hc. eauto.
Qed.

(** C1, as stated, fails: the workbook cannot be parsed, the
    converter reports it and returns [None], and the pipeline uploads
    the file as it is and returns success. *)
Lemma conversion_failure_returns_success :
  fst (Excel.convert_excel_to_markdown (read_excel Samples.sv_bad_workbook)
         (to_markdown Samples.sv_bad_workbook) [])
  = Ok None
  ∧ fst (upload_and_import_file Samples.sv_bad_workbook Samples.store_a
           Samples.grades_upload "pymupdf4llm (빠름)" "gemini-2.0-flash" Samples.world0)
    = Ok (true, "grades.XLSX (표 최적화)")
  ∧ ¬ (∃ reason,
         fst (upload_and_import_file Samples.sv_bad_workbook Samples.store_a
                Samples.grades_upload "pymupdf4llm (빠름)" "gemini-2.0-flash"
                Samples.world0)
         = Ok (false, reason)).
Proof.
  split; [reflexivity|]. split; [vm_compute; reflexivity|].
  intros [reason H]. vm_compute in H. discriminate.
Qed.

(** C1, amended. The conversion step never raises. When the selected
    converter fails, that is returns [None], the pipeline returns a
    result and no exception: it uploads the staged original with the
    MIME type application/octet-stream, and the result is a failure
    with the text of the exception when the upload, the import or the
    wait raises, and a success otherwise. *)
Theorem upload_and_import_file_conversion_failure (sv : services)
    (store_name : string) (f : uploaded) (pm vm : string) (wd : world) :
  stage sv = Written →
  ∃ c display_name fr,
    convert_step sv f (suffix_of f) pm vm (staged sv f wd) = (Ok (c, display_name), fr)
    ∧ (c = None →
       fst (upload_and_import_file sv store_name f pm vm wd)
       = Ok (upload_outcome sv store_name (tmp_path_of sv f)
               "application/octet-stream" display_name (clk (w fr)))).
Proof.
  intros Hstage.
  destruct (convert_step_returns sv f (suffix_of f) pm vm (staged sv f wd))
    as (c & display_name & fr & Hconv).
  exists c, display_name, fr. split; [exact Hconv|]. intros ->.
  rewrite (upload_and_import_file_staged _ _ _ _ _ _ Hstage). cbn [fst].
  f_equal. unfold run_try_block, try_block, upload_outcome.
  fold (staged sv f wd).
  unfold mbind at 1. unfold io_bind at 1. rewrite Hconv.
  unfold stage_step. cbn [truthy].
  unfold mbind, mret, io_bind, io_ret, lift, on_clock. cbn [fst snd w clk].
  destruct (files_upload sv _ _ _) as [file_obj|e]; [|reflexivity].
  destruct (import_file sv store_name file_obj) as [op|e]; [|reflexivity].
  destruct (wait_for_operation _ _ _ _) as [[op'|e] c']; reflexivity.
Qed.

Lemma upload_and_import_file_conversion_failure_witness :
  ∃ fr,
    convert_step Samples.sv_bad_workbook Samples.grades_upload
      (suffix_of Samples.grades_upload) "pymupdf4llm (빠름)" "gemini-2.0-flash"
      (staged Samples.sv_bad_workbook Samples.grades_upload Samples.world0)
    = (Ok (None, "grades.XLSX (표 최적화)"), fr)
    ∧ fst (upload_and_import_file Samples.sv_bad_workbook Samples.store_a
             Samples.grades_upload "pymupdf4llm (빠름)" "gemini-2.0-flash" Samples.world0)
      = Ok (upload_outcome Samples.sv_bad_workbook Samples.store_a
              "/tmp/tmpk3v9x_2a.xlsx" "application/octet-stream"
              "grades.XLSX (표 최적화)" (clk (w fr))).
Proof.
  destruct (upload_and_import_file_conversion_failure Samples.sv_bad_workbook
              Samples.store_a Samples.grades_upload "pymupdf4llm (빠름)"
              "gemini-2.0-flash" Samples.world0 eq_refl)
    as (c & display_name & fr & Hconv & Hcall).
  assert (c = None ∧ display_name = "grades.XLSX (표 최적화)") as [-> ->].
  { vm_compute in Hconv. by injection Hconv as <- <- _. }
  exists fr. split; [exact Hconv|]. exact (Hcall eq_refl).
Defined.

End IngestFacts.

(** ** Accepted upload types *)

Section UploaderFacts.
Import Uploader.

(** C8. The pipeline converts [.xlsm] uploads as spreadsheets, but the
    upload widget does not list the type and turns such a file away. *)
Lemma uploader_rejects_xlsm :
  accepted_types = ["pdf"; "xlsx"; "xls"; "txt"; "md"; "csv"; "docx"]
  ∧ accepts (Ingest.name Samples.macro_upload) = false
  ∧ Ingest.is_excel_suffix (Ingest.suffix_of Samples.macro_upload) = true.
Proof. repeat split; reflexivity. Qed.

(** The other seven types of the list are taken. *)
Lemma uploader_accepts_listed :
  Forall (λ t, accepts ("notes." +:+ t) = true)
         ["pdf"; "xlsx"; "xls"; "txt"; "md"; "csv"; "docx"].
Proof. repeat constructor. Qed.

End UploaderFacts.

(** * Further properties of the ledger *)

Section LedgerMore.
Import Ledger.

(** On a ledger that is not a JSON object, [delete_file_list] writes
    nothing, whatever it returns or raises. *)
Lemma delete_file_list_not_dict store_id f :
  (∀ d Hd, f ≠ Holds (PDict d) Hd) → snd (delete_file_list store_id f) = f.
Proof.
  intros Hnd. unfold delete_file_list, load_config, lift, get_state,
    put_state, mbind, mret, io_bind, io_ret.
  destruct f as [| |v Hv]; cbn [config_exists json_load py_contains snd].
  - rewrite lookup_empty. rewrite bool_decide_eq_false_2; [reflexivity|].
    intros [? ?]; discriminate.
  - reflexivity.
  - destruct v; cbn [py_contains py_delitem snd]; try reflexivity.
    + destruct (is_substring store_id s); reflexivity.
    + destruct (existsb _ l); reflexivity.
    + by destruct (Hnd d Hv).
    + destruct (is_substring store_id s); reflexivity.
Qed.

(** X1. Deleting the list of one store leaves what [get_file_list]
    returns for every other store id as it was, whatever the ledger
    file is: absent, not JSON, a JSON value that is not an object, or
    an object.  The write cannot fail on a str: what is written back
    was read from the file, which holds no lone surrogate. *)
Theorem delete_file_list_frame (s t : string) (f : ledger_file) :
  t ≠ s →
  fst (get_file_list t (snd (delete_file_list s f))) = fst (get_file_list t f).
Proof.
  intros Hne.
  destruct f as [| |v Hv];
    try (rewrite delete_file_list_not_dict; [reflexivity|discriminate]).
  destruct v; try (rewrite delete_file_list_not_dict; [reflexivity|discriminate]).
  rewrite delete_file_list_on_dict. cbn [snd].
  case_bool_decide; [|reflexivity].
  rewrite !get_file_list_on_dict. cbn [fst].
  rewrite lookup_delete_ne by congruence. reflexivity.
Qed.

(** The list of the second store is read back after the list of the
    first was deleted. *)
Lemma delete_file_list_frame_witness :
  fst (get_file_list Samples.store_b
         (snd (delete_file_list Samples.store_a Samples.ledger_ab)))
  = Ok (files_value Samples.names_b)
  ∧ fst (get_file_list Samples.store_a
           (snd (delete_file_list Samples.store_a Samples.ledger_ab)))
    = Ok (PList []).
Proof.
  split.
  - rewrite (delete_file_list_frame Samples.store_a Samples.store_b
               Samples.ledger_ab); [reflexivity | discriminate].
  - apply delete_file_list_removes. exact I.
Defined.

(** X2. Deleting the list of a store that has no entry writes nothing:
    a ledger object without the key is left as it is, and a missing
    ledger file is not created. *)
Theorem delete_file_list_absent (s : string) (f : ledger_file) :
  f = Missing ∨ (∃ d Hd, f = Holds (PDict d) Hd ∧ d !! s = None) →
  delete_file_list s f = (Ok tt, f).
Proof.
  intros [-> | (d & Hd & -> & Hnone)].
  - apply delete_file_list_on_missing.
  - rewrite delete_file_list_on_dict.
    rewrite bool_decide_eq_false_2; [reflexivity|].
    rewrite Hnone. intros [? ?]; discriminate.
Qed.

Lemma delete_file_list_absent_witness :
  delete_file_list Samples.store_a Missing = (Ok tt, Missing)
  ∧ delete_file_list Samples.store_b Samples.ledger_a = (Ok tt, Samples.ledger_a).
Proof.
  split.
  - apply delete_file_list_absent. by left.
  - apply delete_file_list_absent. right.
    exists {[ Samples.store_a := files_value Samples.names_a ]}, I.
    split; [reflexivity|]. apply lookup_singleton_ne. discriminate.
Defined.

(** X3. Saves of lists the encoder can write compose as writes to a
    map: a second save for the same store replaces the first, and
    saves for two different stores give the same ledger in either
    order; on a ledger that cannot be updated (a file that is not
    JSON, or JSON that is not an object) a save raises and leaves the
    file as it was. *)
Theorem save_file_list_compose (s t : string) (a b : pyval) (f : ledger_file) :
  Is_true (encodable a) → Is_true (encodable b) →
  snd (save_file_list s b (snd (save_file_list s a f))) = snd (save_file_list s b f)
  ∧ (s ≠ t →
     snd (save_file_list t b (snd (save_file_list s a f)))
     = snd (save_file_list s a (snd (save_file_list t b f))))
  ∧ (¬ ledger_ok f →
     is_ok (fst (save_file_list s a f)) = false ∧ snd (save_file_list s a f) = f).
Proof.
  intros Ha Hb. split; [|split].
  - rewrite (save_file_list_state s a f).
    destruct f as [| |[] Hv]; try reflexivity.
    + rewrite (dumped_Holds _ (encodable_insert s a ∅ encodable_empty Ha)).
      rewrite !save_file_list_state. by rewrite insert_insert_eq.
    + rewrite (dumped_Holds _ (encodable_insert s a d Hv Ha)).
      rewrite !save_file_list_state. by rewrite insert_insert_eq.
  - intros Hne.
    rewrite (save_file_list_state s a f), (save_file_list_state t b f).
    destruct f as [| |[] Hv]; try reflexivity.
    + rewrite (dumped_Holds _ (encodable_insert s a ∅ encodable_empty Ha)),
        (dumped_Holds _ (encodable_insert t b ∅ encodable_empty Hb)).
      rewrite !save_file_list_state. by rewrite insert_insert_ne.
    + rewrite (dumped_Holds _ (encodable_insert s a d Hv Ha)),
        (dumped_Holds _ (encodable_insert t b d Hv Hb)).
      rewrite !save_file_list_state. by rewrite insert_insert_ne.
  - intros Hno. destruct f as [| |[] Hv]; try (split; reflexivity);
      exfalso; apply Hno; exact I.
Qed.

(** On the ledger of two stores, saves for the two stores commute and
    both lists are read back; a file that is not JSON stays as it is. *)
Lemma save_file_list_compose_witness :
  fst (get_file_list Samples.store_a
         (snd (save_file_list Samples.store_b (files_value ["b.md"])
                 (snd (save_file_list Samples.store_a (files_value ["a.md"])
                         Samples.ledger_ab)))))
  = Ok (files_value ["a.md"])
  ∧ snd (save_file_list Samples.store_b (files_value ["b.md"])
           (snd (save_file_list Samples.store_a (files_value ["a.md"])
                   Samples.ledger_ab)))
    = snd (save_file_list Samples.store_a (files_value ["a.md"])
             (snd (save_file_list Samples.store_b (files_value ["b.md"])
                     Samples.ledger_ab)))
  ∧ snd (save_file_list Samples.store_a (files_value ["a.md"]) Garbled) = Garbled.
Proof.
  split; [reflexivity|]. split.
  - apply (save_file_list_compose Samples.store_a Samples.store_b
             (files_value ["a.md"]) (files_value ["b.md"]) Samples.ledger_ab I I).
    discriminate.
  - apply (save_file_list_compose Samples.store_a Samples.store_b
             (files_value ["a.md"]) (files_value ["b.md"]) Garbled I I).
    intros H. exact H.
Defined.

End LedgerMore.

(** * Further properties of the wait *)

Section PollingMore.
Import Polling.

(** The loop returns an operation only when it reports done. *)
Lemma wait_loop_returns_done api op start_time timeout c op' c' :
  wait_loop api op start_time timeout c = (Ok op', c') → done op' = true.
Proof.
  funelim (wait_loop api op start_time timeout c); intros Hret.
  - by injection Hret as <- _.
  - discriminate.
  - by eapply H.
  - discriminate.
Qed.

(** X4. [wait_for_operation] returns an operation only when that
    operation reports done. *)
Theorem wait_for_operation_returns_done (api : operations_api) (op : operation)
    (timeout : Z) (c : clock) (op' : operation) (c' : clock) :
  wait_for_operation api op timeout c = (Ok op', c') → done op' = true.
Proof. apply wait_loop_returns_done. Qed.

Lemma wait_for_operation_returns_done_witness :
  wait_for_operation Samples.slow_api Samples.pending_op 300 Samples.clock0
  = (Ok Samples.done_op, Clock 1700000012 [3; 3; 3]%Z 3)
  ∧ done Samples.done_op = true.
Proof.
  assert (wait_for_operation Samples.slow_api Samples.pending_op 300 Samples.clock0
          = (Ok Samples.done_op, Clock 1700000012 [3; 3; 3]%Z 3)) as Hcall
    by (vm_compute; reflexivity).
  split; [exact Hcall|].
  exact (wait_for_operation_returns_done _ _ _ _ _ _ Hcall).
Defined.

Lemma wait_loop_rounds api op start_time timeout c :
  ∃ k, sleeps (snd (wait_loop api op start_time timeout c))
       = sleeps c ++ replicate k 3%Z
     ∧ polls (snd (wait_loop api op start_time timeout c)) = polls c + k
     ∧ (Z.of_nat k * 3 ≤ Z.max 0 (timeout - (now c - start_time) + 3))%Z.
Proof.
  funelim (wait_loop api op start_time timeout c).
  - exists 0. cbn. rewrite app_nil_r. repeat split; lia.
  - exists 0. cbn. rewrite app_nil_r. repeat split; lia.
  - destruct H as (k & Hs & Hp & Hk). exists (S k).
    rewrite Hs, Hp. cbn [sleeps polls now after_get time_sleep] in *.
    rewrite <- app_assoc. repeat split; [lia|lia].
  - exists 1. cbn. repeat split; lia.
Qed.

(** X5. Every round of the wait is one sleep of three seconds followed
    by one poll: the sleeps added are all of three seconds and as many
    as the polls issued, whatever the outcome. *)
Theorem wait_for_operation_rounds (api : operations_api) (op : operation)
    (timeout : Z) (c : clock) :
  ∃ k, sleeps (snd (wait_for_operation api op timeout c)) = sleeps c ++ replicate k 3%Z
     ∧ polls (snd (wait_for_operation api op timeout c)) = polls c + k.
Proof.
  destruct (wait_loop_rounds api op (now c) timeout c) as (k & Hs & Hp & _).
  exists k. split; assumption.
Qed.

(** X6. With a timeout that is not negative, the wait polls at most
    [timeout / 3 + 1] times: 101 times for the default of 300 seconds. *)
Theorem wait_for_operation_poll_bound (api : operations_api) (op : operation)
    (timeout : Z) (c : clock) :
  (0 ≤ timeout)%Z →
  (Z.of_nat (polls (snd (wait_for_operation api op timeout c)) - polls c)
   ≤ timeout / 3 + 1)%Z.
Proof.
  intros Hpos.
  destruct (wait_loop_rounds api op (now c) timeout c) as (k & _ & Hp & Hk).
  unfold wait_for_operation. rewrite Hp.
  replace (polls c + k - polls c) with k by lia.
  replace (timeout - (now c - now c) + 3)%Z with (timeout + 3)%Z in Hk by lia.
  rewrite Z.max_r in Hk by lia.
  assert (Z.of_nat k ≤ (timeout + 3) / 3)%Z as Hle
    by (apply Z.div_le_lower_bound; lia).
  replace (timeout + 3)%Z with (timeout + 1 * 3)%Z in Hle by lia.
  rewrite Z.div_add in Hle by lia. exact Hle.
Qed.

Lemma wait_for_operation_poll_bound_witness :
  (Z.of_nat (polls (snd (wait_for_operation Samples.stuck_api Samples.pending_op 300
                           Samples.clock0))
             - polls Samples.clock0)
   ≤ 101)%Z.
Proof.
  apply (wait_for_operation_poll_bound Samples.stuck_api Samples.pending_op 300
           Samples.clock0).
  lia.
Defined.

Lemma wait_loop_raises api op start_time timeout c e c' :
  wait_loop api op start_time timeout c = (Raise e, c') →
  e = TimeoutError ∨ ∃ k, get_response api k = Raise e.
Proof.
  funelim (wait_loop api op start_time timeout c); intros Hret.
  - discriminate.
  - left. by injection Hret as <- _.
  - by eapply H.
  - right. injection Hret as <- _. eauto.
Qed.

(** X7. An exception leaving the wait is the timeout error or the
    exception some [client.operations.get] call raised, unchanged. *)
Theorem wait_for_operation_raises (api : operations_api) (op : operation)
    (timeout : Z) (c : clock) (e : exn) (c' : clock) :
  wait_for_operation api op timeout c = (Raise e, c') →
  e = TimeoutError ∨ ∃ k, get_response api k = Raise e.
Proof. apply wait_loop_raises. Qed.

Lemma wait_for_operation_raises_witness :
  TimeoutError = TimeoutError
  ∨ ∃ k, get_response Samples.stuck_api k = Raise TimeoutError.
Proof.
  apply (wait_for_operation_raises Samples.stuck_api Samples.pending_op 60
           Samples.clock0 TimeoutError
           (Clock 1700000064 (replicate 16 3%Z) 16)).
  vm_compute. reflexivity.
Defined.

End PollingMore.

(** * Further properties of the scanned-PDF probe *)

Section PdfProbeMore.
Import PdfProbe.

(** X8. Only the first three pages are read: pages after the third,
    readable or not, do not change the answer. *)
Theorem is_scanned_pdf_first_three (ps extra : list (result pytext))
    (closed : result unit) :
  3 ≤ length ps →
  is_scanned_pdf (Ok (PdfDoc (ps ++ extra) closed))
  = is_scanned_pdf (Ok (PdfDoc ps closed)).
Proof.
  intros Hlen. unfold is_scanned_pdf, probe. cbn [mbind result_bind pages].
  by rewrite take_app_le.
Qed.

Lemma is_scanned_pdf_first_three_witness :
  is_scanned_pdf (Ok Samples.scanned_doc)
  = is_scanned_pdf
      (Ok (PdfDoc [Ok Samples.page_number_text; Ok []; Ok Samples.page_number_text]
             (Ok tt))).
Proof.
  apply (is_scanned_pdf_first_three
           [Ok Samples.page_number_text; Ok []; Ok Samples.page_number_text]
           [Raise Samples.unreadable] (Ok tt)).
  cbn. lia.
Defined.

Lemma lstrip_all_space t : Forall (λ c, py_isspace c = true) t → lstrip t = [].
Proof.
  induction 1 as [|c t Hc _ IH]; [reflexivity|]. cbn. by rewrite Hc.
Qed.

Lemma length_lstrip t : length (lstrip t) ≤ length t.
Proof.
  induction t as [|c t IH]; [reflexivity|]. cbn.
  destruct (py_isspace c); cbn; lia.
Qed.

Lemma length_strip t : length (strip t) ≤ length t.
Proof.
  unfold strip, rstrip. rewrite length_rev.
  etrans; [apply length_lstrip|]. rewrite length_rev. apply length_lstrip.
Qed.

(** X9. A PDF whose first three pages hold white space only is
    classified as scanned, however long that text is. *)
Theorem is_scanned_pdf_blank (doc : pdf_doc) (texts : list pytext) :
  take 3 (pages doc) = Ok <$> texts →
  close_result doc = Ok tt →
  Forall (Forall (λ c, py_isspace c = true)) texts →
  is_scanned_pdf (Ok doc) = true.
Proof.
  intros Hpages Hclose Hblank. unfold is_scanned_pdf.
  rewrite (probe_all_ok doc texts Hpages Hclose).
  apply bool_decide_eq_true_2.
  assert (Forall (λ c, py_isspace c = true) (concat texts)) as Hall.
  { clear Hpages. induction texts as [|t ts IH]; [constructor|].
    apply Forall_cons in Hblank as [Ht Hts].
    change (concat (t :: ts)) with (t ++ concat ts).
    apply Forall_app. split; [exact Ht | exact (IH Hts)]. }
  unfold strip. rewrite (lstrip_all_space _ Hall). cbn. lia.
Qed.

Lemma is_scanned_pdf_blank_witness :
  is_scanned_pdf
    (Ok (PdfDoc [Ok (replicate 400 32%N); Ok (replicate 400 10%N)] (Ok tt)))
  = true.
Proof.
  apply (is_scanned_pdf_blank _ [replicate 400 32%N; replicate 400 10%N]);
    [reflexivity | reflexivity |].
  repeat constructor; apply Forall_replicate; reflexivity.
Defined.

(** X10. A PDF whose first three pages give fewer than 100 characters
    in all, so also one without pages, is classified as scanned. *)
Theorem is_scanned_pdf_short (doc : pdf_doc) (texts : list pytext) :
  take 3 (pages doc) = Ok <$> texts →
  close_result doc = Ok tt →
  length (concat texts) < 100 →
  is_scanned_pdf (Ok doc) = true.
Proof.
  intros Hpages Hclose Hshort. unfold is_scanned_pdf.
  rewrite (probe_all_ok doc texts Hpages Hclose).
  apply bool_decide_eq_true_2.
  pose proof (length_strip (concat texts)). lia.
Qed.

Lemma is_scanned_pdf_short_witness :
  is_scanned_pdf (Ok (PdfDoc [] (Ok tt))) = true.
Proof.
  apply (is_scanned_pdf_short _ []); [reflexivity | reflexivity | cbn; lia].
Defined.

End PdfProbeMore.

(** * Further properties of the converters *)

Section ExcelMore.
Import Excel.

Lemma sheets_loop_all_empty to_markdown xls acc :
  Forall (λ sheet, df_empty (snd sheet) = true) xls →
  sheets_loop to_markdown xls acc = Ok acc.
Proof.
  induction 1 as [|[name df] xls Hdf _ IH]; [reflexivity|].
  cbn in *. by rewrite Hdf.
Qed.

Lemma sheets_loop_render_fails to_markdown xls acc :
  Exists (λ sheet, df_empty (snd sheet) = false
                   ∧ ∃ e, to_markdown (fillna EmptyString (snd sheet)) = Raise e) xls →
  ∃ e, sheets_loop to_markdown xls acc = Raise e
       ∧ Exists (λ sheet, to_markdown (fillna EmptyString (snd sheet)) = Raise e) xls.
Proof.
  revert acc. induction xls as [|[name df] xls IH]; intros acc Hex.
  { by apply Exists_nil in Hex. }
  cbn [sheets_loop]. destruct (df_empty df) eqn:Hempty.
  - apply Exists_cons in Hex as [[Hne _]|Hex]; [cbn in Hne; congruence|].
    destruct (IH acc Hex) as (e & Hloop & Hwhere).
    exists e. split; [exact Hloop | by apply Exists_cons_tl].
  - destruct (to_markdown (fillna EmptyString df)) as [table|e] eqn:Hrender.
    + apply Exists_cons in Hex as [[_ [e He]]|Hex]; [cbn in He; congruence|].
      match goal with |- context [sheets_loop _ _ ?a] =>
        destruct (IH a Hex) as (e & Hloop & Hwhere) end.
      exists e. split; [exact Hloop | by apply Exists_cons_tl].
    + exists e. split; [reflexivity | by apply Exists_cons_hd].
Qed.

(** X12. When rendering a non-empty sheet raises, the spreadsheet
    converter gives no partial text: it returns [None] and shows one
    error, with the message of an exception the renderer raised. *)
Theorem convert_excel_to_markdown_render_fails (to_markdown : DataFrame → result string)
    (xls : workbook) (page : list ui_event) :
  Exists (λ sheet, df_empty (snd sheet) = false
                   ∧ ∃ e, to_markdown (fillna EmptyString (snd sheet)) = Raise e) xls →
  ∃ e, Exists (λ sheet, to_markdown (fillna EmptyString (snd sheet)) = Raise e) xls
       ∧ convert_excel_to_markdown (Ok xls) to_markdown page
         = (Ok None, page ++ [UiError ("엑셀 변환 실패: " +:+ exn_msg e)]).
Proof.
  intros Hex.
  destruct (sheets_loop_render_fails to_markdown xls EmptyString Hex)
    as (e & Hloop & Hwhere).
  exists e. split; [exact Hwhere|].
  unfold convert_excel_to_markdown. by rewrite Hloop.
Qed.

Lemma convert_excel_to_markdown_render_fails_witness :
  ∃ e, Exists (λ sheet, Samples2.broken_to_markdown (fillna EmptyString (snd sheet))
                        = Raise e) Samples.book
       ∧ convert_excel_to_markdown (Ok Samples.book) Samples2.broken_to_markdown []
         = (Ok None, [] ++ [UiError ("엑셀 변환 실패: " +:+ exn_msg e)]).
Proof.
  apply (convert_excel_to_markdown_render_fails Samples2.broken_to_markdown
           Samples.book []).
  apply Exists_cons_hd. split; [reflexivity | by eexists].
Defined.

End ExcelMore.

Section VisionMore.
Import Convert Vision.

Lemma vision_pages_all_ok generate model total images texts :
  Forall2 (λ img text, generate model img = Ok text) images texts →
  ∀ i all_content page,
    vision_pages generate model total i images all_content page
    = (Ok (all_content ++ imap (λ j text, page_block (i + j) text) texts),
       page ++ imap (λ j _, page_toast total (i + j)) images).
Proof.
  induction 1 as [|img text images texts Hgen _ IH]; intros i all_content page.
  - cbn. by rewrite !app_nil_r.
  - cbn [vision_pages]. unfold mbind, io_bind, lift. rewrite Hgen.
    unfold mbind, io_bind in IH. rewrite IH.
    rewrite !imap_cons, <- !app_assoc, Nat.add_0_r. cbn [app].
    rewrite (imap_ext (λ j t, page_block (i + 1 + j) t)
               ((λ j t, page_block (i + j) t) ∘ S) texts)
      by (intros; cbn; f_equal; lia).
    rewrite (imap_ext (λ j (_ : string), page_toast total (i + 1 + j))
               ((λ j _, page_toast total (i + j)) ∘ S) images)
      by (intros; cbn; f_equal; lia).
    reflexivity.
Qed.

(** X13. When the PDF renders and the model answers for every page,
    the vision converter returns the page blocks, numbered from 1 and
    in page order, joined with a horizontal rule, and shows one
    progress message a page; a PDF without pages gives the empty
    text. *)
Theorem convert_with_gemini_vision_all_ok (generate : string → string → result string)
    (model : string) (images texts : list string) (page : list ui_event) :
  Forall2 (λ img text, generate model img = Ok text) images texts →
  convert_with_gemini_vision (Ok images) generate model page
  = (Ok (Some (join separator (imap page_block texts))),
     page ++ imap (λ k _, page_toast (length images) k) images).
Proof.
  intros Hgen. unfold convert_with_gemini_vision.
  unfold mbind at 1. unfold io_bind at 1. unfold lift at 1.
  unfold mbind at 1. unfold io_bind at 1.
  rewrite (vision_pages_all_ok generate model (length images) images texts Hgen 0 [] page).
  reflexivity.
Qed.

Lemma convert_with_gemini_vision_all_ok_witness :
  convert_with_gemini_vision (Ok ["png-1"; "png-2"]) Samples2.steady_generate
    "gemini-2.0-flash" []
  = (Ok (Some (join separator
                 (imap page_block ["text of png-1"; "text of png-2"]))),
     [] ++ imap (λ k _, page_toast 2 k) ["png-1"; "png-2"]).
Proof.
  apply (convert_with_gemini_vision_all_ok Samples2.steady_generate
           "gemini-2.0-flash" ["png-1"; "png-2"]
           ["text of png-1"; "text of png-2"] []).
  repeat constructor.
Defined.

Lemma vision_pages_fails generate model total before img after texts e :
  Forall2 (λ img text, generate model img = Ok text) before texts →
  generate model img = Raise e →
  ∀ i all_content page,
    vision_pages generate model total i (before ++ img :: after) all_content page
    = (Raise e,
       page ++ imap (λ j _, page_toast total (i + j)) (before ++ [img])).
Proof.
  intros Hok Hfail.
  induction Hok as [|img0 text before texts Hgen _ IH]; intros i all_content page.
  - cbn [app vision_pages]. unfold mbind, io_bind, lift. rewrite Hfail.
    cbn. unfold page_toast. by rewrite Nat.add_0_r.
  - cbn [app vision_pages]. unfold mbind, io_bind, lift. rewrite Hgen.
    unfold mbind, io_bind in IH. rewrite IH.
    rewrite imap_cons, <- app_assoc, Nat.add_0_r. cbn [app].
    rewrite (imap_ext (λ j (_ : string), page_toast total (i + 1 + j))
               ((λ j _, page_toast total (i + j)) ∘ S) (before ++ [img]))
      by (intros; cbn; f_equal; lia).
    reflexivity.
Qed.

(** X14. When the model fails on a page, the vision converter stops
    there: it has shown the progress messages up to that page, shows
    one error, returns [None] and keeps nothing of the pages already
    converted. *)
Theorem convert_with_gemini_vision_page_fails
    (generate : string → string → result string) (model : string)
    (before : list string) (img : string) (after texts : list string) (e : exn)
    (page : list ui_event) :
  Forall2 (λ img text, generate model img = Ok text) before texts →
  generate model img = Raise e →
  is_import_error e = false →
  convert_with_gemini_vision (Ok (before ++ img :: after)) generate model page
  = (Ok None,
     page ++ imap (λ k _, page_toast (length (before ++ img :: after)) k) (before ++ [img])
          ++ [UiError ("Gemini Vision 처리 실패: " +:+ exn_msg e)]).
Proof.
  intros Hok Hfail Hkind. unfold convert_with_gemini_vision.
  unfold mbind at 1. unfold io_bind at 1. unfold lift at 1.
  unfold mbind at 1. unfold io_bind at 1.
  rewrite (vision_pages_fails generate model _ before img after texts e Hok Hfail 0 [] page).
  rewrite Hkind. by rewrite <- app_assoc.
Qed.

Lemma convert_with_gemini_vision_page_fails_witness :
  convert_with_gemini_vision (Ok (["png-1"] ++ "png-2" :: ["png-3"]))
    Samples2.flaky_generate "gemini-2.0-flash" []
  = (Ok None,
     [] ++ imap (λ k _, page_toast 3 k) (["png-1"] ++ ["png-2"])
        ++ [UiError ("Gemini Vision 처리 실패: " +:+ exn_msg Samples2.quota)]).
Proof.
  apply (convert_with_gemini_vision_page_fails Samples2.flaky_generate
           "gemini-2.0-flash" ["png-1"] "png-2" ["png-3"] ["text of png-1"]
           Samples2.quota []);
    [repeat constructor | reflexivity | reflexivity].
Defined.

End VisionMore.

(** * Further properties of paths and suffixes *)

Section PathMore.
Import Path.

Lemma lower_char_dot c : Ascii.eqb (lower_char c) "." = Ascii.eqb c ".".
Proof. destruct c as [[] [] [] [] [] [] [] []]; reflexivity. Qed.

Lemma lower_char_slash c : Ascii.eqb (lower_char c) "/" = Ascii.eqb c "/".
Proof. destruct c as [[] [] [] [] [] [] [] []]; reflexivity. Qed.

Lemma lower_char_idemp c : lower_char (lower_char c) = lower_char c.
Proof. destruct c as [[] [] [] [] [] [] [] []]; reflexivity. Qed.

Lemma lower_idemp s : lower (lower s) = lower s.
Proof.
  induction s as [|c s IH]; [reflexivity|]. cbn. by rewrite lower_char_idemp, IH.
Qed.

Lemma rsplit_at_lower ch s :
  (∀ c, Ascii.eqb (lower_char c) ch = Ascii.eqb c ch) →
  rsplit_at ch (lower s)
  = match rsplit_at ch s with
    | Some (pre, post) => Some (lower pre, lower post)
    | None => None
    end.
Proof.
  intros Hch. induction s as [|c s IH]; [reflexivity|].
  cbn [lower rsplit_at]. rewrite IH.
  destruct (rsplit_at ch s) as [[pre post]|]; [reflexivity|].
  rewrite Hch. destruct (Ascii.eqb c ch); reflexivity.
Qed.

Lemma all_dots_lower s : all_dots (lower s) = all_dots s.
Proof.
  induction s as [|c s IH]; [reflexivity|]. cbn. by rewrite lower_char_dot, IH.
Qed.

Lemma basename_lower p : basename (lower p) = lower (basename p).
Proof.
  unfold basename. rewrite (rsplit_at_lower "/" p lower_char_slash).
  destruct (rsplit_at "/" p) as [[pre [|c post]]|]; reflexivity.
Qed.

Lemma splitext_ext_lower p : splitext_ext (lower p) = lower (splitext_ext p).
Proof.
  unfold splitext_ext. rewrite basename_lower.
  rewrite (rsplit_at_lower "." _ lower_char_dot).
  destruct (rsplit_at "." (basename p)) as [[pre ext]|]; [|reflexivity].
  rewrite all_dots_lower. destruct (all_dots pre); reflexivity.
Qed.

(** X15. In the pipeline the case of a file name does not matter:
    two names of ASCII characters (where [lower] is [str.lower]) that
    differ only in the case of letters get the same suffix, hence the
    same branch: spreadsheet, PDF or neither. *)
Theorem suffix_ignores_case (f1 f2 : Ingest.uploaded) :
  ascii_only (Ingest.name f1) = true →
  ascii_only (Ingest.name f2) = true →
  lower (Ingest.name f1) = lower (Ingest.name f2) →
  Ingest.suffix_of f1 = Ingest.suffix_of f2
  ∧ Ingest.is_excel_suffix (Ingest.suffix_of f1)
    = Ingest.is_excel_suffix (Ingest.suffix_of f2).
Proof.
  intros _ _ Hsame.
  assert (Ingest.suffix_of f1 = Ingest.suffix_of f2) as Hext.
  { unfold Ingest.suffix_of.
    rewrite <- (lower_idemp (splitext_ext (Ingest.name f1))).
    rewrite <- (lower_idemp (splitext_ext (Ingest.name f2))).
    rewrite <- !splitext_ext_lower. by rewrite Hsame. }
  split; [exact Hext | by rewrite Hext].
Qed.

Lemma suffix_ignores_case_witness :
  Ingest.suffix_of Samples.grades_upload = ".xlsx"
  ∧ Ingest.suffix_of (Ingest.Uploaded "Grades.xlsx" "PK") = ".xlsx".
Proof.
  destruct (suffix_ignores_case Samples.grades_upload
              (Ingest.Uploaded "Grades.xlsx" "PK") eq_refl eq_refl eq_refl)
    as [Hsame _].
  split; [rewrite Hsame|]; reflexivity.
Defined.

Lemma prefix_refl s : String.prefix s s = true.
Proof.
  induction s as [|c s IH]; [reflexivity|]. cbn.
  destruct (ascii_dec c c); [exact IH | congruence].
Qed.

Lemma replace_from_skip_all old new s :
  replace_from (String.length s) old new s = EmptyString.
Proof. induction s as [|c s IH]; [reflexivity|]. cbn. exact IH. Qed.

(** X16. When the suffix occurs in the temporary path only at its
    end, [tmp_path.replace(suffix, ".md")] is the path with the suffix
    exchanged for [.md]. *)
Theorem replace_suffix (stem old new : string) :
  old ≠ EmptyString →
  Occurs.matches_before old stem old = false →
  replace (stem +:+ old) old new = stem +:+ new.
Proof.
  intros Hold Hclean. destruct old as [|c o]; [congruence|]. clear Hold.
  unfold replace.
  induction stem as [|x stem IH].
  - change (EmptyString +:+ String c o) with (String c o).
    cbn [replace_from]. rewrite prefix_refl.
    replace (String.length (String c o) - 1) with (String.length o) by (cbn; lia).
    rewrite replace_from_skip_all.
    change (EmptyString +:+ new) with new.
    induction new as [|y new IHn]; [reflexivity|].
    change (String y new +:+ EmptyString) with (String y (new +:+ EmptyString)).
    by rewrite IHn.
  - cbn [Occurs.matches_before] in Hclean.
    apply orb_false_iff in Hclean as [Hhere Hrest].
    change (String x stem +:+ String c o) with (String x (stem +:+ String c o)) in *.
    cbn [replace_from]. rewrite Hhere. rewrite (IH Hrest). reflexivity.
Qed.

Lemma replace_suffix_witness :
  replace (Ingest.tmp_path_of Samples.sv_import_stuck Samples.week1_upload)
    (Ingest.suffix_of Samples.week1_upload) ".md"
  = "/tmp/tmpk3v9x_2a.md".
Proof.
  apply (replace_suffix "/tmp/tmpk3v9x_2a" ".pdf" ".md"); [discriminate | reflexivity].
Defined.

End PathMore.

(** * Further properties of the pipeline *)

Section IngestMore.
Import Ingest Polling Expected.

Lemma try_block_steps sv store_name f tmp suffix pm vm :
  try_block sv store_name f tmp suffix pm vm
  = (convert_step sv f suffix pm vm ≫= λ '(converted_content, display_name),
     stage_step sv tmp suffix converted_content ≫= λ '(upload_path, mime_type),
     upload_steps sv store_name upload_path mime_type display_name).
Proof. reflexivity. Qed.

(** The outcome of steps 4 and 5, as the pipeline reports it. *)
Lemma upload_steps_outcome sv store_name upload_path mime_type display_name fr :
  match fst (upload_steps sv store_name upload_path mime_type display_name fr) with
  | Ok d => (true, d)
  | Raise e => (false, exn_msg e)
  end
  = upload_outcome sv store_name upload_path mime_type display_name (clk (w fr)).
Proof.
  unfold upload_steps, upload_outcome, mbind, mret, io_bind, io_ret, lift, on_clock.
  destruct (files_upload sv _ _ _) as [file_obj|e]; [|reflexivity].
  cbn [fst snd w clk].
  destruct (import_file sv store_name file_obj) as [op|e]; [|reflexivity].
  destruct (wait_for_operation _ _ _ _) as [[op'|e] c']; reflexivity.
Qed.

Lemma hoare_page_quiet {A} (pg : list ui_event) (m : io frame A) :
  (∀ fr, page (w (snd (m fr))) = page (w fr)) →
  hoare (λ fr, page (w fr) = pg) m (λ fr, page (w fr) = pg).
Proof. intros Hm fr Hpg. by rewrite Hm. Qed.

Lemma upload_steps_page sv store_name upload_path mime_type display_name fr :
  page (w (snd (upload_steps sv store_name upload_path mime_type display_name fr)))
  = page (w fr).
Proof.
  unfold upload_steps, mbind, mret, io_bind, io_ret, lift, on_clock.
  destruct (files_upload sv _ _ _) as [file_obj|e]; [|reflexivity].
  cbn [fst snd w clk].
  destruct (import_file sv store_name file_obj) as [op|e]; [|reflexivity].
  destruct (wait_for_operation _ _ _ _) as [[op'|e] c']; reflexivity.
Qed.

Lemma stage_step_page sv tmp suffix content fr :
  page (w (snd (stage_step sv tmp suffix content fr))) = page (w fr).
Proof.
  unfold stage_step. destruct (truthy content); [|reflexivity].
  unfold mbind, mret, io_bind, io_ret, set_md_path, write_md, on_world, throw.
  destruct (md_write sv); reflexivity.
Qed.

Lemma page_cleanup tmp fr : page (cleanup tmp fr) = page (w fr).
Proof.
  unfold cleanup, remove_if_exists.
  destruct (md_path fr); repeat case_decide; reflexivity.
Qed.

(** The result and the page of a call, from what the conversion step
    gave. *)
Lemma upload_after_convert sv store_name f pm vm wd c display_name fr :
  stage sv = Written →
  convert_step sv f (suffix_of f) pm vm (staged sv f wd) = (Ok (c, display_name), fr) →
  fst (upload_and_import_file sv store_name f pm vm wd)
  = Ok (if truthy c then
          match md_write sv with
          | Written =>
              upload_outcome sv store_name (md_path_of sv f) "text/markdown"
                display_name (clk (w fr))
          | OpenFails e | WriteFails e => (false, exn_msg e)
          end
        else upload_outcome sv store_name (tmp_path_of sv f)
               "application/octet-stream" display_name (clk (w fr)))
  ∧ page (snd (upload_and_import_file sv store_name f pm vm wd)) = page (w fr).
Proof.
  intros Hstage Hconv.
  rewrite (upload_and_import_file_staged _ _ _ _ _ _ Hstage). cbn [fst snd].
  rewrite page_cleanup. unfold run_try_block. rewrite try_block_steps.
  fold (staged sv f wd). unfold mbind at 1 3. unfold io_bind at 1 3. rewrite Hconv.
  split.
  - f_equal. unfold stage_step. destruct (truthy c).
    + unfold mbind, mret, io_bind, io_ret, set_md_path, write_md, on_world, throw.
      fold (md_path_of sv f).
      destruct (md_write sv); cbn [fst snd]; try reflexivity.
      rewrite upload_steps_outcome. reflexivity.
    + unfold mbind, mret, io_bind, io_ret. rewrite upload_steps_outcome. reflexivity.
  - unfold mbind, io_bind.
    pose proof (stage_step_page sv (tmp_path_of sv f) (suffix_of f) c fr) as Hst.
    destruct (stage_step sv (tmp_path_of sv f) (suffix_of f) c fr)
      as [[[upload_path mime_type]|e] fr2]; cbn [snd] in *; [|exact Hst].
    by rewrite upload_steps_page.
Qed.

Lemma convert_step_passthrough sv f pm vm fr :
  is_excel_suffix (suffix_of f) = false →
  String.eqb (suffix_of f) ".pdf" = false →
  convert_step sv f (suffix_of f) pm vm fr = (Ok (None, name f), fr).
Proof. intros He Hp. unfold convert_step. by rewrite He, Hp. Qed.

(** X17. A file that is neither a spreadsheet nor a PDF is uploaded as
    it is: the staged copy goes up with the MIME type
    application/octet-stream under the plain file name, the result is
    that of the upload, the import and the wait, and nothing is shown
    on the page. *)
Theorem upload_and_import_file_passthrough (sv : services) (store_name : string)
    (f : uploaded) (pm vm : string) (wd : world) :
  stage sv = Written →
  is_excel_suffix (suffix_of f) = false →
  String.eqb (suffix_of f) ".pdf" = false →
  fst (upload_and_import_file sv store_name f pm vm wd)
  = Ok (upload_outcome sv store_name (tmp_path_of sv f) "application/octet-stream"
          (name f) (clk wd))
  ∧ page (snd (upload_and_import_file sv store_name f pm vm wd)) = page wd.
Proof.
  intros Hstage He Hp.
  exact (upload_after_convert sv store_name f pm vm wd None (name f) (staged sv f wd)
           Hstage (convert_step_passthrough sv f pm vm _ He Hp)).
Qed.

Lemma upload_and_import_file_passthrough_witness :
  fst (upload_and_import_file Samples2.sv_fine Samples.store_a Samples2.notes_upload
         "pymupdf4llm (빠름)" "gemini-2.0-flash" Samples.world0)
  = Ok (upload_outcome Samples2.sv_fine Samples.store_a "/tmp/tmpzz81h0_d.txt"
          "application/octet-stream" "notes.txt" Samples.clock0)
  ∧ page (snd (upload_and_import_file Samples2.sv_fine Samples.store_a
                 Samples2.notes_upload "pymupdf4llm (빠름)" "gemini-2.0-flash"
                 Samples.world0))
    = [].
Proof.
  apply (upload_and_import_file_passthrough Samples2.sv_fine Samples.store_a
           Samples2.notes_upload "pymupdf4llm (빠름)" "gemini-2.0-flash" Samples.world0);
    reflexivity.
Defined.

(** X18. When the converter gave a text that is not empty, the
    pipeline writes it to the markdown file and uploads that file with
    the MIME type text/markdown; when the markdown file cannot be
    written, the call fails with that error. *)
Theorem upload_and_import_file_converted (sv : services) (store_name : string)
    (f : uploaded) (pm vm : string) (wd : world) (a : ascii) (text display_name : string)
    (fr : frame) :
  stage sv = Written →
  convert_step sv f (suffix_of f) pm vm (staged sv f wd)
  = (Ok (Some (String a text), display_name), fr) →
  fst (upload_and_import_file sv store_name f pm vm wd)
  = Ok match md_write sv with
       | Written =>
           upload_outcome sv store_name (md_path_of sv f) "text/markdown"
             display_name (clk (w fr))
       | OpenFails e | WriteFails e => (false, exn_msg e)
       end.
Proof.
  intros Hstage Hconv.
  exact (proj1 (upload_after_convert sv store_name f pm vm wd _ _ _ Hstage Hconv)).
Qed.

Lemma upload_and_import_file_converted_witness :
  fst (upload_and_import_file Samples2.sv_fine Samples.store_a Samples.week1_upload
         "Docling (정확, 느림)" "gemini-2.0-flash" Samples.world0)
  = Ok (upload_outcome Samples2.sv_fine Samples.store_a "/tmp/tmpzz81h0_d.md"
          "text/markdown" "week1.PDF (마크다운 변환)" Samples.clock0).
Proof.
  refine (upload_and_import_file_converted Samples2.sv_fine Samples.store_a
            Samples.week1_upload "Docling (정확, 느림)" "gemini-2.0-flash" Samples.world0
            "#" " Week 1 (docling)" "week1.PDF (마크다운 변환)"
            (Frame (World {["/tmp/tmpzz81h0_d.pdf"]} Samples.clock0
                      [UiToast "🔬 Docling으로 'week1.PDF' 변환 중..."]) None)
            eq_refl _).
  vm_compute. reflexivity.
Defined.

Lemma upload_outcome_success sv store_name upload_path mime_type d c dn :
  upload_outcome sv store_name upload_path mime_type d c = (true, dn) →
  d = dn
  ∧ ∃ file_obj op op' c',
      files_upload sv upload_path mime_type d = Ok file_obj
      ∧ import_file sv store_name file_obj = Ok op
      ∧ wait_for_operation (operations sv) op default_timeout (time_sleep 2 c)
        = (Ok op', c')
      ∧ done op' = true.
Proof.
  unfold upload_outcome.
  destruct (files_upload sv _ _ _) as [file_obj|e] eqn:Hup; [|discriminate].
  destruct (import_file sv store_name file_obj) as [op|e] eqn:Himp; [|discriminate].
  destruct (wait_for_operation _ _ _ _) as [[op'|e] c'] eqn:Hwait; [|discriminate].
  cbn [fst]. intros [= ->]. split; [reflexivity|].
  exists file_obj, op, op', c'.
  split; [reflexivity|]. split; [exact Himp|]. split; [exact Hwait|].
  exact (wait_loop_returns_done _ _ _ _ _ _ _ Hwait).
Qed.

(** What a successful call went through, and the name it returns. *)
Lemma upload_success_inv sv store_name f pm vm wd dn :
  fst (upload_and_import_file sv store_name f pm vm wd) = Ok (true, dn) →
  ∃ c fr upload_path mime_type,
    convert_step sv f (suffix_of f) pm vm (staged sv f wd) = (Ok (c, dn), fr)
    ∧ upload_outcome sv store_name upload_path mime_type dn (clk (w fr)) = (true, dn).
Proof.
  intros Hcall.
  assert (stage sv = Written) as Hstage.
  { apply (upload_and_import_file_returns sv store_name f pm vm wd). by rewrite Hcall. }
  destruct (convert_step_returns sv f (suffix_of f) pm vm (staged sv f wd))
    as (c & d & fr & Hconv).
  destruct (upload_after_convert sv store_name f pm vm wd c d fr Hstage Hconv)
    as [Hres _].
  rewrite Hcall in Hres. injection Hres as Hres. symmetry in Hres.
  destruct (truthy c).
  - destruct (md_write sv); try discriminate.
    destruct (upload_outcome_success _ _ _ _ _ _ _ Hres) as [-> _]. eauto 10.
  - destruct (upload_outcome_success _ _ _ _ _ _ _ Hres) as [-> _]. eauto 10.
Qed.

(** X19. The pipeline reports success only after the upload and the
    import request went through and the wait returned an operation
    that reports done. *)
Theorem upload_and_import_file_success_done (sv : services) (store_name : string)
    (f : uploaded) (pm vm : string) (wd : world) (dn : string) :
  fst (upload_and_import_file sv store_name f pm vm wd) = Ok (true, dn) →
  ∃ upload_path mime_type file_obj op op' c c',
    files_upload sv upload_path mime_type dn = Ok file_obj
    ∧ import_file sv store_name file_obj = Ok op
    ∧ wait_for_operation (operations sv) op default_timeout c = (Ok op', c')
    ∧ done op' = true.
Proof.
  intros Hcall.
  destruct (upload_success_inv sv store_name f pm vm wd dn Hcall)
    as (c & fr & upload_path & mime_type & _ & Hres).
  destruct (upload_outcome_success _ _ _ _ _ _ _ Hres)
    as (_ & file_obj & op & op' & c' & Hup & Himp & Hwait & Hdone).
  eauto 12.
Qed.

Lemma upload_and_import_file_success_done_witness :
  ∃ upload_path mime_type file_obj op op' c c',
    files_upload Samples.sv_bad_workbook upload_path mime_type "grades.XLSX (표 최적화)"
    = Ok file_obj
    ∧ import_file Samples.sv_bad_workbook Samples.store_a file_obj = Ok op
    ∧ wait_for_operation (operations Samples.sv_bad_workbook) op default_timeout c
      = (Ok op', c')
    ∧ done op' = true.
Proof.
  apply (upload_and_import_file_success_done Samples.sv_bad_workbook Samples.store_a
           Samples.grades_upload "pymupdf4llm (빠름)" "gemini-2.0-flash" Samples.world0).
  vm_compute. reflexivity.
Defined.

Lemma convert_step_display_name sv f pm vm fr c dn fr' :
  convert_step sv f (suffix_of f) pm vm fr = (Ok (c, dn), fr') →
  dn = display_name_of sv f.
Proof.
  unfold convert_step, display_name_of, toast, on_page, mbind, mret, io_bind, io_ret.
  destruct (is_excel_suffix (suffix_of f)).
  { cbn. destruct (Excel.convert_excel_to_markdown _ _ _) as [[?|?] ?];
      [by intros [= _ <- _] | discriminate]. }
  destruct (String.eqb (suffix_of f) ".pdf"); [|by intros [= _ <- _]].
  destruct (PdfProbe.is_scanned_pdf _).
  { cbn. destruct (Convert.convert_with_gemini_vision _ _ _ _) as [[?|?] ?];
      [by intros [= _ <- _] | discriminate]. }
  destruct (String.eqb pm _); cbn.
  - destruct (Convert.convert_with_docling _ _) as [[?|?] ?];
      [by intros [= _ <- _] | discriminate].
  - destruct (Convert.convert_with_pymupdf4llm _ _) as [[?|?] ?];
      [by intros [= _ <- _] | discriminate].
Qed.

(** X21. The display name a successful call returns depends on the
    suffix of the file and on the probe only: it is the file name,
    marked for a spreadsheet, a scanned PDF or a digital PDF, also
    when the converter gave no text and the original was uploaded. *)
Theorem upload_and_import_file_display_name (sv : services) (store_name : string)
    (f : uploaded) (pm vm : string) (wd : world) (dn : string) :
  fst (upload_and_import_file sv store_name f pm vm wd) = Ok (true, dn) →
  dn = display_name_of sv f.
Proof.
  intros Hcall.
  destruct (upload_success_inv sv store_name f pm vm wd dn Hcall)
    as (c & fr & _ & _ & Hconv & _).
  exact (convert_step_display_name _ _ _ _ _ _ _ _ Hconv).
Qed.

Lemma upload_and_import_file_display_name_witness :
  "grades.XLSX (표 최적화)" = display_name_of Samples.sv_bad_workbook Samples.grades_upload.
Proof.
  apply (upload_and_import_file_display_name Samples.sv_bad_workbook Samples.store_a
           Samples.grades_upload "pymupdf4llm (빠름)" "gemini-2.0-flash" Samples.world0).
  vm_compute. reflexivity.
Defined.

Lemma io_bind_ext {S A B} (m1 m2 : io S A) (k : A → io S B) (s : S) :
  m1 s = m2 s → (m1 ≫= k) s = (m2 ≫= k) s.
Proof. intros H. unfold mbind, io_bind. by rewrite H. Qed.

Lemma upload_and_import_file_convert_ext sv store_name f pm1 vm1 pm2 vm2 wd :
  convert_step sv f (suffix_of f) pm1 vm1 (staged sv f wd)
  = convert_step sv f (suffix_of f) pm2 vm2 (staged sv f wd) →
  upload_and_import_file sv store_name f pm1 vm1 wd
  = upload_and_import_file sv store_name f pm2 vm2 wd.
Proof.
  intros Hconv. unfold upload_and_import_file, run_try_block.
  rewrite !try_block_steps. fold (staged sv f wd).
  by rewrite (io_bind_ext _ _ _ _ Hconv).
Qed.

(** X20. The converter chosen in the sidebar matters for a digital PDF
    only, and the vision model for a scanned PDF only: for any other
    file the call is the same whatever they are. *)
Theorem upload_and_import_file_settings (sv : services) (store_name : string)
    (f : uploaded) (pm1 pm2 vm1 vm2 : string) (wd : world) :
  (String.eqb (suffix_of f) ".pdf" = false
   ∨ PdfProbe.is_scanned_pdf (fitz_open sv) = true →
   upload_and_import_file sv store_name f pm1 vm1 wd
   = upload_and_import_file sv store_name f pm2 vm1 wd)
  ∧ (String.eqb (suffix_of f) ".pdf" = false
     ∨ PdfProbe.is_scanned_pdf (fitz_open sv) = false →
     upload_and_import_file sv store_name f pm1 vm1 wd
     = upload_and_import_file sv store_name f pm1 vm2 wd).
Proof.
  split; intros Hcase; apply upload_and_import_file_convert_ext;
    unfold convert_step; destruct (is_excel_suffix (suffix_of f)); try reflexivity;
    destruct Hcase as [-> | ->]; try reflexivity;
    destruct (String.eqb (suffix_of f) ".pdf"); reflexivity.
Qed.

Lemma upload_and_import_file_settings_witness :
  upload_and_import_file Samples2.sv_fine Samples.store_a Samples2.notes_upload
    "pymupdf4llm (빠름)" "gemini-2.0-flash" Samples.world0
  = upload_and_import_file Samples2.sv_fine Samples.store_a Samples2.notes_upload
      "Docling (정확, 느림)" "gemini-2.0-flash" Samples.world0
  ∧ upload_and_import_file Samples2.sv_fine Samples.store_a Samples.week1_upload
      "pymupdf4llm (빠름)" "gemini-2.0-flash" Samples.world0
    = upload_and_import_file Samples2.sv_fine Samples.store_a Samples.week1_upload
        "pymupdf4llm (빠름)" "gemini-2.5-pro" Samples.world0.
Proof.
  split.
  - apply (upload_and_import_file_settings Samples2.sv_fine Samples.store_a
             Samples2.notes_upload "pymupdf4llm (빠름)" "Docling (정확, 느림)"
             "gemini-2.0-flash" "gemini-2.0-flash" Samples.world0).
    left. reflexivity.
  - apply (upload_and_import_file_settings Samples2.sv_fine Samples.store_a
             Samples.week1_upload "pymupdf4llm (빠름)" "pymupdf4llm (빠름)"
             "gemini-2.0-flash" "gemini-2.5-pro" Samples.world0).
    right. reflexivity.
Defined.

(** X11. A workbook whose sheets are all empty converts to the empty
    text without any error; the pipeline takes that for no conversion
    and uploads the original file as application/octet-stream, under
    the display name of a converted spreadsheet. *)
Theorem upload_and_import_file_empty_workbook (sv : services) (store_name : string)
    (f : uploaded) (pm vm : string) (wd : world) (xls : Excel.workbook) :
  stage sv = Written →
  is_excel_suffix (suffix_of f) = true →
  read_excel sv = Ok xls →
  Forall (λ sheet, Excel.df_empty (snd sheet) = true) xls →
  Excel.convert_excel_to_markdown (read_excel sv) (to_markdown sv) (page wd)
  = (Ok (Some EmptyString), page wd)
  ∧ fst (upload_and_import_file sv store_name f pm vm wd)
    = Ok (upload_outcome sv store_name (tmp_path_of sv f) "application/octet-stream"
            (name f +:+ " (표 최적화)") (clk wd))
  ∧ page (snd (upload_and_import_file sv store_name f pm vm wd))
    = page wd ++ [UiToast ("📊 엑셀 '" +:+ name f +:+ "' 변환 중...")].
Proof.
  intros Hstage Hexcel Hread Hempty.
  assert (∀ pg, Excel.convert_excel_to_markdown (read_excel sv) (to_markdown sv) pg
                = (Ok (Some EmptyString), pg)) as Hconvert.
  { intros pg. unfold Excel.convert_excel_to_markdown. rewrite Hread.
    by rewrite (sheets_loop_all_empty _ _ _ Hempty). }
  split; [apply Hconvert|].
  assert (convert_step sv f (suffix_of f) pm vm (staged sv f wd)
          = (Ok (Some EmptyString, name f +:+ " (표 최적화)"),
             Frame (World (disk (w (staged sv f wd))) (clk wd)
                      (page wd ++ [UiToast ("📊 엑셀 '" +:+ name f +:+ "' 변환 중...")]))
                   None)) as Hconv.
  { unfold convert_step. rewrite Hexcel.
    unfold toast, on_page, mbind, mret, io_bind, io_ret. cbn.
    rewrite Hconvert. reflexivity. }
  exact (upload_after_convert sv store_name f pm vm wd _ _ _ Hstage Hconv).
Qed.

Lemma upload_and_import_file_empty_workbook_witness :
  fst (upload_and_import_file Samples2.sv_blank_book Samples.store_a Samples.grades_upload
         "pymupdf4llm (빠름)" "gemini-2.0-flash" Samples.world0)
  = Ok (true, "grades.XLSX (표 최적화)").
Proof.
  destruct (upload_and_import_file_empty_workbook Samples2.sv_blank_book Samples.store_a
              Samples.grades_upload "pymupdf4llm (빠름)" "gemini-2.0-flash" Samples.world0
              [("Sheet1", Excel.Table [] []); ("Sheet2", Excel.Table ["a"] [])]
              eq_refl eq_refl eq_refl)
    as (_ & Hres & _).
  - repeat constructor.
  - rewrite Hres. vm_compute. reflexivity.
Defined.

End IngestMore.

(** * Properties of the upload button *)

Section BatchMore.
Import Ledger Ingest Batch.

Lemma upload_and_import_file_disk sv store_name f pm vm wd p :
  stage sv = Written →
  p ∈ disk (snd (upload_and_import_file sv store_name f pm vm wd)) → p ∈ disk wd.
Proof.
  intros Hstage. rewrite (upload_and_import_file_staged _ _ _ _ _ _ Hstage). cbn [snd].
  set (fr := snd (run_try_block sv store_name f pm vm wd)).
  assert (tracked ({[tmp_path_of sv f]} ∪ disk wd) fr) as Ht.
  { apply hoare_try_block. split; [|reflexivity]. intros q Hq. left. exact Hq. }
  rewrite disk_cleanup. intros Hp.
  destruct (md_path fr) as [md|] eqn:Hmd.
  - assert (p ∈ disk (w fr)) as Hin by set_solver.
    destruct (Ht p Hin) as [Hbase|Hp']; [set_solver|].
    rewrite Hmd in Hp'. injection Hp' as ->. set_solver.
  - assert (p ∈ disk (w fr)) as Hin by set_solver.
    destruct (Ht p Hin) as [Hbase|Hp']; [set_solver|].
    rewrite Hmd in Hp'. discriminate.
Qed.

Lemma upload_loop_all_staged store_name pm vm jobs :
  all_staged jobs →
  ∀ succ failed wd,
  ∃ succ' failed',
    fst (upload_loop store_name pm vm jobs succ failed wd)
    = Ok (succ ++ succ', failed ++ failed')
    ∧ length succ' + length failed' = length jobs
    ∧ (∀ p, p ∈ disk (snd (upload_loop store_name pm vm jobs succ failed wd)) →
            p ∈ disk wd).
Proof.
  induction 1 as [|[sv f] jobs Hstage _ IH]; intros succ failed wd.
  - exists [], []. cbn. rewrite !app_nil_r. auto.
  - cbn [fst] in Hstage. cbn [upload_loop].
    pose proof (upload_and_import_file_disk sv store_name f pm vm wd) as Hdisk.
    pose proof (proj2 (upload_and_import_file_returns sv store_name f pm vm wd) Hstage)
      as Hret.
    destruct (upload_and_import_file sv store_name f pm vm wd) as [[[[] r]|e] wd'];
      cbn [fst snd is_ok] in *; [| |discriminate].
    + destruct (IH (succ ++ [r]) failed wd') as (succ' & failed' & Hres & Hlen & Hd).
      exists (r :: succ'), failed'. rewrite Hres, <- app_assoc. cbn.
      repeat split; [lia|]. intros p Hp. apply Hdisk; [exact Hstage|]. by apply Hd.
    + destruct (IH succ (failed ++ [name f +:+ ": " +:+ r]) wd')
        as (succ' & failed' & Hres & Hlen & Hd).
      exists succ', ((name f +:+ ": " +:+ r) :: failed'). rewrite Hres, <- app_assoc. cbn.
      repeat split; [lia|]. intros p Hp. apply Hdisk; [exact Hstage|]. by apply Hd.
Qed.

(** X22. When every upload of a batch can be staged, the loop goes
    through all the files: it returns, and each file is counted once,
    among the successes or among the failures, so a failed file does
    not stop the files after it. *)
Theorem upload_loop_counts (store_name pm vm : string)
    (jobs : list (services * uploaded)) (wd : world) :
  all_staged jobs →
  ∃ success_files failed_files,
    fst (upload_loop store_name pm vm jobs [] [] wd) = Ok (success_files, failed_files)
    ∧ length success_files + length failed_files = length jobs.
Proof.
  intros Hst.
  destruct (upload_loop_all_staged store_name pm vm jobs Hst [] [] wd)
    as (s & fl & Hres & Hlen & _).
  exists s, fl. split; [exact Hres | exact Hlen].
Qed.

Lemma upload_loop_counts_witness :
  fst (upload_loop Samples.store_a "pymupdf4llm (빠름)" "gemini-2.0-flash"
         Samples2.three_jobs [] [] Samples.world0)
  = Ok (["grades.XLSX (표 최적화)"; "week1.PDF (마크다운 변환)"],
        ["week1.PDF: 작업 시간 초과 (5분)"]).
Proof.
  destruct (upload_loop_counts Samples.store_a "pymupdf4llm (빠름)" "gemini-2.0-flash"
              Samples2.three_jobs Samples.world0)
    as (s & fl & Hres & _).
  - repeat constructor.
  - vm_compute. reflexivity.
Defined.

(** X24. When every upload of a batch can be staged, no temporary
    file of the batch is left when the loop ends: every file on the
    disk was there before. *)
Theorem upload_loop_leaves_no_file (store_name pm vm : string)
    (jobs : list (services * uploaded)) (wd : world) (p : string) :
  all_staged jobs →
  p ∈ disk (snd (upload_loop store_name pm vm jobs [] [] wd)) → p ∈ disk wd.
Proof.
  intros Hst.
  destruct (upload_loop_all_staged store_name pm vm jobs Hst [] [] wd)
    as (s & fl & _ & _ & Hdisk).
  apply Hdisk.
Qed.

Lemma upload_loop_leaves_no_file_witness :
  "/tmp/tmpzz81h0_d.md"
  ∉ disk (snd (upload_loop Samples.store_a "pymupdf4llm (빠름)" "gemini-2.0-flash"
                 Samples2.three_jobs [] [] Samples.world0)).
Proof.
  intros Hp.
  apply (upload_loop_leaves_no_file Samples.store_a "pymupdf4llm (빠름)"
           "gemini-2.0-flash" Samples2.three_jobs Samples.world0) in Hp;
    [|repeat constructor].
  exact (not_elem_of_empty _ Hp).
Defined.






(** The loop over a batch is the loop over its first files, then the
    loop over the others unless a call raised. *)
Lemma upload_loop_app store_name pm vm jobs rest :
  ∀ succ failed wd,
    upload_loop store_name pm vm (jobs ++ rest) succ failed wd
    = match upload_loop store_name pm vm jobs succ failed wd with
      | (Ok (succ', failed'), wd') => upload_loop store_name pm vm rest succ' failed' wd'
      | (Raise e, wd') => (Raise e, wd')
      end.
Proof.
  induction jobs as [|[sv f] jobs IH]; intros succ failed wd; [reflexivity|].
  cbn [List.app upload_loop].
  destruct (upload_and_import_file sv store_name f pm vm wd) as [[[[] r]|e] wd'];
    [apply IH | apply IH | reflexivity].
Qed.

(** A call whose staging fails raises, whatever comes after it in the
    batch: the loop ends in the world that call left. *)
Lemma upload_loop_staging_fails store_name pm vm before sv f after e :
  all_staged before →
  stage sv = OpenFails e ∨ stage sv = WriteFails e →
  ∀ succ failed wd,
    upload_loop store_name pm vm (before ++ (sv, f) :: after) succ failed wd
    = (Raise e,
       snd (upload_and_import_file sv store_name f pm vm
              (snd (upload_loop store_name pm vm before succ failed wd)))).
Proof.
  intros Hbefore Hfail succ failed wd. rewrite upload_loop_app.
  destruct (upload_loop_all_staged store_name pm vm before Hbefore succ failed wd)
    as (succ' & failed' & Hres & _).
  destruct (upload_loop store_name pm vm before succ failed wd) as [[[s1 f1]|e1] wd1];
    [|discriminate Hres].
  cbn [snd upload_loop]. unfold upload_and_import_file.
  destruct Hfail as [-> | ->]; reflexivity.
Qed.

(** X25. When staging one upload of a batch raises, the handler stops
    there.  What it leaves is the world after the files before it and
    after the staging that failed, with the error shown last, and the
    ledger and the current store as they were, also when files
    before it went through: the files after it are not processed,
    they leave no trace on the disk, the clock or the page. *)
Theorem upload_button_staging_fails (create_store : result string)
    (before : list (services * uploaded)) (sv : services) (f : uploaded)
    (after : list (services * uploaded)) (e : exn) (pm vm : string) (s : app)
    (c : ascii) (n : string) :
  a_store s = Some (String c n) →
  all_staged before →
  stage sv = OpenFails e ∨ stage sv = WriteFails e →
  let wd := snd (upload_and_import_file sv (String c n) f pm vm
                   (snd (upload_loop (String c n) pm vm before [] [] (a_world s)))) in
  upload_button create_store (before ++ (sv, f) :: after) pm vm s
  = App (World (disk wd) (clk wd) (page wd ++ [UiError ("오류 발생: " +:+ exn_msg e)]))
        (a_ledger s) (a_store s)
  ∧ a_ledger (upload_button create_store (before ++ (sv, f) :: after) pm vm s) = a_ledger s
  ∧ last (page (a_world (upload_button create_store (before ++ (sv, f) :: after)
                           pm vm s)))
    = Some (UiError ("오류 발생: " +:+ exn_msg e)).
Proof.
  intros Hstore Hbefore Hfail wd.
  pose proof (upload_loop_staging_fails (String c n) pm vm before sv f after e
                Hbefore Hfail [] [] (a_world s)) as Hloop.
  fold wd in Hloop.
  assert (upload_button create_store (before ++ (sv, f) :: after) pm vm s
          = App (World (disk wd) (clk wd)
                   (page wd ++ [UiError ("오류 발생: " +:+ exn_msg e)]))
                (a_ledger s) (a_store s)) as Heq.
  { unfold upload_button. rewrite Hstore.
    unfold mbind, mret, io_bind, io_ret, in_world, in_ledger, show, sleep, lift.
    rewrite Hloop. cbn. by rewrite Hstore. }
  rewrite Heq. cbn [a_ledger a_world page]. repeat split. apply last_snoc.
Qed.

(** A batch of a file that goes through, a file whose staging fails
    and a third file: the handler leaves what it leaves without the
    third file, and the clock shows the polls of the first file only. *)
Lemma upload_button_staging_fails_witness :
  upload_button (Raise Samples.remote_down)
    ([(Samples2.sv_fine, Samples.week1_upload)]
     ++ (Samples2.sv_disk_full, Samples.grades_upload)
        :: [(Samples2.sv_fine, Samples2.notes_upload)])
    "pymupdf4llm (빠름)" "gemini-2.0-flash" Samples2.app0
  = upload_button (Raise Samples.remote_down)
      ([(Samples2.sv_fine, Samples.week1_upload)]
       ++ (Samples2.sv_disk_full, Samples.grades_upload) :: [])
      "pymupdf4llm (빠름)" "gemini-2.0-flash" Samples2.app0
  ∧ a_ledger (upload_button (Raise Samples.remote_down)
                ([(Samples2.sv_fine, Samples.week1_upload)]
                 ++ (Samples2.sv_disk_full, Samples.grades_upload)
                    :: [(Samples2.sv_fine, Samples2.notes_upload)])
                "pymupdf4llm (빠름)" "gemini-2.0-flash" Samples2.app0)
    = Samples.ledger_a.
Proof.
  assert (all_staged [(Samples2.sv_fine, Samples.week1_upload)]) as Hst
    by repeat constructor.
  destruct (upload_button_staging_fails (Raise Samples.remote_down)
              [(Samples2.sv_fine, Samples.week1_upload)] Samples2.sv_disk_full
              Samples.grades_upload [(Samples2.sv_fine, Samples2.notes_upload)]
              Samples2.disk_full "pymupdf4llm (빠름)" "gemini-2.0-flash" Samples2.app0
              "f" "ileSearchStores/lecture-notes" eq_refl Hst (or_intror eq_refl))
    as (Hall & Hledger & _).
  destruct (upload_button_staging_fails (Raise Samples.remote_down)
              [(Samples2.sv_fine, Samples.week1_upload)] Samples2.sv_disk_full
              Samples.grades_upload []
              Samples2.disk_full "pymupdf4llm (빠름)" "gemini-2.0-flash" Samples2.app0
              "f" "ileSearchStores/lecture-notes" eq_refl Hst (or_intror eq_refl))
    as (Hcut & _).
  split; [|exact Hledger].
  rewrite Hall, Hcut. reflexivity.
Defined.

End BatchMore.

(** * Properties of the store selector *)

Section StoresMore.
Import Stores.

Lemma dict_get_set_eq {V} k (v : V) d : dict_get k (dict_set k v d) = Some v.
Proof.
  induction d as [|[k' v'] d IH]; cbn.
  - by rewrite String.eqb_refl.
  - destruct (String.eqb k k') eqn:E; cbn; rewrite ?String.eqb_refl, ?E; auto.
Qed.

Lemma dict_get_set_ne {V} k k' (v : V) d :
  k ≠ k' → dict_get k' (dict_set k v d) = dict_get k' d.
Proof.
  intros Hne. induction d as [|[k0 v0] d IH]; cbn.
  - apply String.eqb_neq in Hne. rewrite String.eqb_sym in Hne. by rewrite Hne.
  - destruct (String.eqb k k0) eqn:E; cbn.
    + apply String.eqb_eq in E as <-.
      assert (String.eqb k' k = false) as -> by (apply String.eqb_neq; congruence).
      reflexivity.
    + by rewrite IH.
Qed.

Lemma dict_set_keys {V} k (v : V) d :
  fst <$> dict_set k v d
  = if bool_decide (k ∈ fst <$> d) then fst <$> d else (fst <$> d) ++ [k].
Proof.
  induction d as [|[k0 v0] d IH]; [reflexivity|]. cbn.
  destruct (String.eqb k k0) eqn:E.
  - apply String.eqb_eq in E as <-. cbn.
    rewrite bool_decide_eq_true_2; [reflexivity | apply elem_of_cons; auto].
  - apply String.eqb_neq in E. cbn. rewrite IH.
    destruct (bool_decide (k ∈ fst <$> d)) eqn:Hin.
    + apply bool_decide_eq_true_1 in Hin.
      rewrite bool_decide_eq_true_2; [reflexivity | apply elem_of_cons; auto].
    + apply bool_decide_eq_false_1 in Hin.
      rewrite bool_decide_eq_false_2; [reflexivity|].
      intros [?|?]%elem_of_cons; congruence.
Qed.

Lemma dict_set_NoDup {V} k (v : V) d :
  NoDup (fst <$> d) → NoDup (fst <$> dict_set k v d).
Proof.
  intros Hnd. rewrite dict_set_keys. case_bool_decide as Hin; [exact Hnd|].
  apply NoDup_app. repeat split; [exact Hnd | | apply NoDup_singleton].
  intros x Hx Hx'. apply list_elem_of_singleton in Hx' as ->. contradiction.
Qed.

Lemma options_fold_get l stores :
  ∀ d, dict_get l (foldl (λ d s, dict_set (label s) (Some (store_name s)) d) d stores)
       = match last_labelled l stores with
         | Some s => Some (Some (store_name s))
         | None => dict_get l d
         end.
Proof.
  unfold last_labelled.
  induction stores as [|s stores IH]; intros d; [reflexivity|].
  cbn [foldl List.filter]. rewrite IH.
  destruct (String.eqb (label s) l) eqn:E.
  - rewrite last_cons. destruct (last (List.filter _ stores)); [reflexivity|].
    apply String.eqb_eq in E as <-. apply dict_get_set_eq.
  - destruct (last (List.filter _ stores)); [reflexivity|].
    apply dict_get_set_ne. by apply String.eqb_neq.
Qed.

Lemma options_fold_NoDup stores :
  ∀ d : list (string * option string),
    NoDup (fst <$> d) →
    NoDup (fst <$> foldl (λ d s, dict_set (label s) (Some (store_name s)) d) d stores).
Proof.
  induction stores as [|s stores IH]; intros d Hnd; [exact Hnd|].
  cbn [foldl]. apply IH. by apply dict_set_NoDup.
Qed.

(** X26. In the store selector every label appears once, the entry
    for a new store selects no store, and any other label selects the
    last listed store shown under it: of two stores with the same
    display name, only the later one can be selected. *)
Theorem store_options_lookup (stores : list store) :
  NoDup (fst <$> store_options stores)
  ∧ dict_get new_store_label (store_options stores) = Some None
  ∧ (∀ l, l ≠ new_store_label →
       dict_get l (store_options stores)
       = (λ s, Some (store_name s)) <$> last_labelled l stores).
Proof.
  unfold store_options. split; [|split].
  - apply dict_set_NoDup, options_fold_NoDup. constructor.
  - apply dict_get_set_eq.
  - intros l Hne. rewrite dict_get_set_ne by congruence.
    rewrite options_fold_get. by destruct (last_labelled l stores).
Qed.

Lemma store_options_lookup_witness :
  dict_get "Lectures" (store_options Samples2.two_stores)
  = Some (Some "fileSearchStores/c3").
Proof.
  destruct (store_options_lookup Samples2.two_stores) as (_ & _ & Hget).
  rewrite Hget; [reflexivity | discriminate].
Defined.

End StoresMore.

(** * Properties of the chat history *)

Section ChatMore.
Import Chat.

Lemma ordered_from_snoc prev h m :
  ordered_from prev (h ++ [m])
  = ordered_from prev h
    && follows (match last h with Some x => Some x | None => prev end) m.
Proof.
  revert prev. induction h as [|x h IH]; intros prev.
  - cbn. by rewrite andb_true_r.
  - cbn [List.app ordered_from]. rewrite IH, last_cons, andb_assoc.
    by destruct (last h).
Qed.

Lemma generate_visualization_image api content image_model caption page t page' :
  generate_visualization api content image_model caption page = (Ok (Some t), page') →
  ∃ data, t = ImageTurn data caption.
Proof.
  unfold generate_visualization.
  destruct (describe api _) as [desc|e]; [|discriminate].
  destruct (draw api image_model desc) as [parts|e]; [|discriminate].
  destruct (first_inline parts) as [data|]; [|discriminate].
  intros [= <- _]. eauto.
Qed.

(** What an event other than clearing does to the history: nothing,
    or one more turn that fits the last one. *)
Lemma handle_extends s ev :
  ev ≠ Clear →
  history (handle s ev) = history s
  ∨ ∃ m, history (handle s ev) = history s ++ [m]
         ∧ follows (last (history s)) m = true.
Proof.
  intros Hev. destruct ev as [prompt|api|api model|api model|]; [| | | |congruence];
    cbn [handle].
  - destruct prompt as [|c p]; [by left|]. right. eexists. split; reflexivity.
  - unfold respond. destruct (last (history s)) as [[| |]|] eqn:Hlast; try by left.
    destruct (answer_stream api _) as [chunks|e]; [|by left].
    destruct (collect chunks EmptyString); [|by left].
    right. eexists. split; reflexivity.
  - unfold visualize_answer, visualize.
    destruct (last (history s)) as [[| |]|] eqn:Hlast; try by left.
    destruct (generate_visualization _ _ _ _ _) as [[[t|]|e] pg] eqn:Hgen; try by left.
    apply generate_visualization_image in Hgen as [data ->].
    right. eexists. split; reflexivity.
  - unfold visualize_context, visualize.
    destruct (last (history s)) as [[| |]|] eqn:Hlast; try by left.
    destruct (generate_visualization _ _ _ _ _) as [[[t|]|e] pg] eqn:Hgen; try by left.
    apply generate_visualization_image in Hgen as [data ->].
    right. eexists. split; reflexivity.
Qed.

Lemma handle_ordered s ev :
  ordered (history s) = true → ordered (history (handle s ev)) = true.
Proof.
  intros Hord. destruct ev as [prompt|api|api model|api model|] eqn:Hev;
    try (rewrite <- Hev;
         destruct (handle_extends s ev) as [->|(m & -> & Hm)];
         [subst ev; discriminate | exact Hord |];
         unfold ordered in *; rewrite ordered_from_snoc, Hord;
         destruct (last (history s)); exact Hm).
  reflexivity.
Qed.

(** X27. Whatever happens in the chat tab, starting from the empty
    history of a new session, a model turn always comes directly after
    a user turn and an image turn directly after a model turn. *)
Theorem history_ordered (events : list event) :
  ordered (history (run events)) = true.
Proof.
  unfold run.
  assert (∀ s, ordered (history s) = true →
               ordered (history (foldl handle s events)) = true) as Hall.
  { induction events as [|ev events IH]; intros s Hs; [exact Hs|].
    cbn [foldl]. apply IH. by apply handle_ordered. }
  apply Hall. reflexivity.
Qed.

(** X30. The history is an append-only log: an event other than
    clearing the conversation keeps every turn that is there and adds
    at most one turn at the end. *)
Theorem history_append_only (s : chat) (ev : event) :
  ev ≠ Clear →
  ∃ added, history (handle s ev) = history s ++ added ∧ length added ≤ 1.
Proof.
  intros Hev. destruct (handle_extends s ev Hev) as [->|(m & -> & _)].
  - exists []. split; [by rewrite app_nil_r | cbn; lia].
  - exists [m]. split; [reflexivity | cbn; lia].
Qed.

Lemma history_append_only_witness :
  ∃ added,
    history (handle (ChatState [UserTurn "기말 범위는?"] []) (Respond Samples2.chat_api))
    = [UserTurn "기말 범위는?"] ++ added
    ∧ length added ≤ 1.
Proof.
  apply (history_append_only (ChatState [UserTurn "기말 범위는?"] [])
           (Respond Samples2.chat_api)).
  discriminate.
Defined.

(** X29. The image turn carries the inline data of the first part of
    the response that has any, under the caption asked for; parts
    without data before it are skipped and nothing is shown on the
    page. *)
Theorem generate_visualization_first_inline (api : model_api)
    (content image_model caption desc data : string)
    (skipped rest : list (option string)) (page : list ui_event) :
  describe api (describe_prompt content) = Ok desc →
  draw api image_model desc = Ok (skipped ++ Some data :: rest) →
  Forall (λ part, part = None) skipped →
  generate_visualization api content image_model caption page
  = (Ok (Some (ImageTurn data caption)), page).
Proof.
  intros Hdesc Hdraw Hskip. unfold generate_visualization. rewrite Hdesc, Hdraw.
  assert (first_inline (skipped ++ Some data :: rest) = Some data) as ->; [|reflexivity].
  clear Hdraw. induction Hskip as [|part skipped -> _ IH]; [reflexivity | exact IH].
Qed.

Lemma generate_visualization_first_inline_witness :
  generate_visualization Samples2.chat_api "답변" "gemini-2.5-flash-image" "답변 시각화" []
  = (Ok (Some (ImageTurn "png-bytes" "답변 시각화")), []).
Proof.
  apply (generate_visualization_first_inline Samples2.chat_api "답변"
           "gemini-2.5-flash-image" "답변 시각화" "a diagram" "png-bytes"
           [None] [Some "other"] []);
    [reflexivity | reflexivity | repeat constructor].
Defined.

End ChatMore.

(** * Further properties of the store deletion *)

Section ManageMore.
Import Ledger Manage.

(** X28. Where the delete button can be pressed, the sidebar has read
    the ledger, which is then absent or a JSON object.  There the
    removal of the ledger entry cannot fail, and the remote deletion
    decides the outcome: when it went through, the entry is removed,
    the current store is cleared and success is shown before the
    script runs again; when it raised, the store stays selected, the
    ledger is left as it was and one error with the message of the
    remote exception is shown. *)
Theorem delete_store_button_outcome (remote_delete : result unit)
    (store_id : string) (s : session) :
  ledger_ok (ledger s) →
  delete_store_button remote_delete store_id s
  = match remote_delete with
    | Ok _ =>
        Session (snd (delete_file_list store_id (ledger s))) None
                (ui s ++ [UiSuccess "✅ 삭제 완료"; UiRerun])
    | Raise e =>
        Session (ledger s) (current_store s)
                (ui s ++ [UiError ("삭제 실패: " +:+ exn_msg e)])
    end.
Proof.
  intros Hok.
  unfold delete_store_button, in_ledger, show, set_current_store, lift, mbind, io_bind.
  destruct remote_delete as [[]|e]; [|reflexivity].
  destruct (delete_file_list_removes store_id (ledger s) Hok) as (Hret & _).
  destruct (delete_file_list store_id (ledger s)) as [[[]|e] f'];
    cbn [fst snd ledger current_store ui] in *; [|discriminate].
  by rewrite <- app_assoc.
Qed.

(** With the first store selected: a remote error keeps it selected
    and shows the error; a remote deletion that went through clears
    the selection. *)
Lemma delete_store_button_outcome_witness :
  delete_store_button (Raise Samples.remote_down) Samples.store_a Samples.session_a
  = Session Samples.ledger_a (Some Samples.store_a)
      [UiError "삭제 실패: 503 UNAVAILABLE"]
  ∧ current_store (delete_store_button (Ok tt) Samples.store_a Samples.session_a)
    = None.
Proof.
  split.
  - apply (delete_store_button_outcome (Raise Samples.remote_down) Samples.store_a
             Samples.session_a). exact I.
  - rewrite (delete_store_button_outcome (Ok tt) Samples.store_a Samples.session_a I).
    reflexivity.
Defined.

End ManageMore.
